(** * deepseek_finetune.py: a shallow embedding of the fine-tuning script

    The script is sequential orchestration around external machine-learning
    libraries.  The embedding keeps what the script itself decides:
    - the prompt formatter [format_instruction] (a pure function on a dict);
    - the control flow of [prepare_dataset], [setup_model], [setup_trainer],
      [test_model] and [main], with Python's exception propagation,
      [try]/[except Exception]/[finally];
    - the literal configuration objects handed to the libraries;
    - the file-system operations on the [offload] directory.

    Library calls whose result the script cannot determine (model loading,
    training, text generation, the experiment tracker) are fields of a
    [Library] class: total functions from the current world to a value or a
    raised exception, together with the next world. *)

From Stdlib Require Import QArith Qround Ascii String.
From stdpp Require Import gmap strings list fin_maps pretty.

Local Open Scope string_scope.
Local Open Scope list_scope.

(** ** Python exceptions *)

(** The classes that matter to [except Exception]: everything derives from
    [BaseException]; [KeyboardInterrupt], [SystemExit] and [GeneratorExit] do
    not derive from [Exception]. *)
Inductive exc_class :=
  | KeyError | IndexError | ValueError | TypeError | RuntimeError
  | MemoryError | OSError | FileExistsError | FileNotFoundError
  | NotADirectoryError
  | LibraryError (name : string)
  | KeyboardInterrupt | SystemExit | GeneratorExit.

(** [issubclass(c, Exception)]. *)
Definition is_Exception (c : exc_class) : bool :=
  match c with
  | KeyboardInterrupt | SystemExit | GeneratorExit => false
  | _ => true
  end.

(** An exception instance: its class and the text [str(e)] gives. *)
Record exn := mk_exn { exn_class : exc_class; exn_str : string }.

(** ** Pure computations that may raise *)

Inductive result (A : Type) :=
  | Return (a : A)
  | Raise (e : exn).
Arguments Return {A} a.
Arguments Raise {A} e.

#[global] Instance result_ret : MRet result := λ A a, Return a.
#[global] Instance result_bind : MBind result := λ A B f r,
  match r with
  | Return a => f a
  | Raise e => Raise e
  end.

#[global] Instance result_fmap : FMap result := λ A B f r,
  match r with
  | Return a => Return (f a)
  | Raise e => Raise e
  end.

(** ** Python values stored in dataset rows *)

Inductive value :=
  | VNone
  | VStr (s : string)
  | VInts (l : list Z).

Definition nl : string := String "010"%char "".

(** [repr] of a list of ints: [[1, 2, 3]]. *)
Definition repr_ints (l : list Z) : string :=
  "[" +:+ String.concat ", " (pretty <$> l) +:+ "]".

(** What an f-string replacement field [{v}] renders. *)
Definition py_format (v : value) : string :=
  match v with
  | VNone => "None"
  | VStr s => s
  | VInts l => repr_ints l
  end.

Definition py_format_opt (o : option string) : string :=
  match o with
  | None => "None"
  | Some s => s
  end.

(** A dict with string keys; a dataset row. *)
Abbreviation row := (gmap string value).

(** [repr] of a key, as [str(KeyError(key))] shows it. *)
Definition repr_key (k : string) : string := "'" +:+ k +:+ "'".

(** [d[k]]: the value, or [KeyError(k)]. *)
Definition getitem {V} (d : gmap string V) (k : string) : result V :=
  match d !! k with
  | Some v => Return v
  | None => Raise (mk_exn KeyError (repr_key k))
  end.

(** [l[i]] on a sequence: the element, or [IndexError]. *)
Definition getindex {A} (what : string) (l : list A) (i : nat) : result A :=
  match l !! i with
  | Some a => Return a
  | None => Raise (mk_exn IndexError (what +:+ " index out of range"))
  end.

(** [t in s] on strings. *)
Fixpoint str_contains (s t : string) : bool :=
  String.prefix t s ||
  match s with
  | EmptyString => false
  | String _ s' => str_contains s' t
  end.

(** ** The tokenizer object *)

Inductive side := Left | Right.

(** The attributes of the tokenizer the script reads or assigns, and the two
    vocabulary functions of the library the model of [__call__] needs. *)
Record Tokenizer := mk_tokenizer {
  eos_token : option string;
  pad_token : option string;
  padding_side : side;
  encode : string → list Z;
  convert_tokens_to_ids : string → Z
}.

(** ** format_instruction (lines 73-86) *)

Definition instruction_header : string :=
  "### Instruction:" +:+ nl +:+ "Please reason step by step:" +:+ nl +:+ nl +:+
  "### Question:" +:+ nl.

Definition response_header : string :=
  nl +:+ nl +:+ "### Response:" +:+ nl +:+ "<think>" +:+ nl +:+ nl.

Definition think_close : string :=
  nl +:+ "</think>" +:+ nl +:+ nl.

Definition format_instruction (tokenizer : Tokenizer) (sample : row) : result string :=
  question ← getitem sample "Question";
  complex_cot ← getitem sample "Complex_CoT";
  response ← getitem sample "Response";
  mret (instruction_header +:+ py_format question +:+
        response_header +:+ py_format complex_cot +:+
        think_close +:+ py_format response +:+
        nl +:+ py_format_opt (eos_token tokenizer)).

(** ** Datasets *)

(** A [datasets.Dataset]: its schema's column names and its rows.  A
    [DatasetDict] maps split names to datasets. *)
Record Dataset := mk_dataset { column_names : list string; rows : list row }.

Abbreviation DatasetDict := (gmap string Dataset).

(** Modelled from the spec: [Dataset.map] belongs to the datasets library
    and is not in src/.  The spec has the mapping step reformat each example
    and let a lookup error of the function through ("propagated from the
    mapping step, unhandled").  Without batching [function] is applied to
    each row in order, the columns to remove are dropped from the input row
    and the row is updated with what [function] returned.  The worker pool
    behind [num_proc] is the library's ("not orchestrated here") and does not
    change the rows produced; an empty dataset is returned as it is. *)
Definition remove_columns_row (cols : list string) (x : row) : row :=
  foldr delete x cols.

Fixpoint map_rows (function : row → result row) (remove : list string)
    (xs : list row) : result (list row) :=
  match xs with
  | [] => mret []
  | x :: xs' =>
      y ← function x;
      ys ← map_rows function remove xs';
      mret ((y ∪ remove_columns_row remove x) :: ys)
  end.

Definition mapped_columns (old remove : list string) (first : row) : list string :=
  let kept := list_difference old remove in
  kept ++ list_difference (elements (dom first)) kept.

Definition Dataset_map (function : row → result row) (remove_columns : list string)
    (num_proc : option nat) (d : Dataset) : result Dataset :=
  rs ← map_rows function remove_columns (rows d);
  mret match rs with
       | [] => d
       | r :: _ => mk_dataset (mapped_columns (column_names d) remove_columns r) rs
       end.

(** ** The tokenizer call *)

Inductive padding_strategy := DoNotPad | PadLongest | PadMaxLength.

(** Modelled from the spec: the tokenizer's [__call__] belongs to the
    transformers library and is not in src/.  The spec describes the step as
    "fixed-length token-id sequences with padding/truncation to a constant
    maximum length": [truncation=True] cuts the encoded ids to [max_length],
    [padding="max_length"] fills up to [max_length] with the pad token's id on
    [padding_side], and the attention mask marks the real tokens.  A
    tokenizer without a pad token cannot pad.  A single text has nothing to
    pad to under [padding="longest"].  [return_tensors=None] gives Python
    lists, returned in a dict-like object with these two keys. *)
Definition tokenizer_call (tok : Tokenizer) (text : string) (truncation : bool)
    (padding : padding_strategy) (max_length : nat) : result row :=
  let ids := encode tok text in
  let ids := if truncation then take max_length ids else ids in
  let ones := replicate (length ids) 1%Z in
  match padding with
  | PadMaxLength =>
      match pad_token tok with
      | None =>
          Raise (mk_exn ValueError
                   "Asking to pad but the tokenizer does not have a padding token.")
      | Some p =>
          let k := (max_length - length ids)%nat in
          let pad := replicate k (convert_tokens_to_ids tok p) in
          let zeros := replicate k 0%Z in
          mret match padding_side tok with
               | Right => {[ "input_ids" := VInts (ids ++ pad);
                             "attention_mask" := VInts (ones ++ zeros) ]}
               | Left => {[ "input_ids" := VInts (pad ++ ids);
                            "attention_mask" := VInts (zeros ++ ones) ]}
               end
      end
  | _ => mret {[ "input_ids" := VInts ids; "attention_mask" := VInts ones ]}
  end.

(** Both sequences of a tokenized row have [n] entries. *)
Definition token_length_is (n : nat) (x : row) : bool :=
  match x !! "input_ids", x !! "attention_mask" with
  | Some (VInts ids), Some (VInts mask) =>
      (length ids =? n)%nat && (length mask =? n)%nat
  | _, _ => false
  end.

(** ** The file system *)

(** Paths are lists of components relative to the working directory. *)
Inductive node := Dir | File (data : string).

Abbreviation FS := (gmap (list string) node).

Fixpoint split_slash (cur s : string) : list string :=
  match s with
  | EmptyString => [cur]
  | String c s' =>
      if Ascii.eqb c "/"%char then cur :: split_slash "" s'
      else split_slash (cur +:+ String c "") s'
  end.

(** ["./fine_tuned_model"] and ["fine_tuned_model"] name the same entry. *)
Definition path_components (p : string) : list string :=
  filter (λ c, c ≠ "" ∧ c ≠ ".") (split_slash "" p).

(** [os.makedirs(p, exist_ok=...)] for a path with one component, the only
    kind the script creates. *)
Definition makedirs (p : list string) (exist_ok : bool) (fs : FS) : result FS :=
  match fs !! p with
  | None => mret (<[p := Dir]> fs)
  | Some Dir =>
      if exist_ok then mret fs
      else Raise (mk_exn FileExistsError "[Errno 17] File exists")
  | Some (File _) => Raise (mk_exn FileExistsError "[Errno 17] File exists")
  end.

(** [os.path.exists(p)]. *)
Definition path_exists (p : list string) (fs : FS) : bool :=
  bool_decide (is_Some (fs !! p)).

(** [os.path.isdir(p)] and [os.path.isfile(p)], for a path as the script
    writes it. *)
Definition dir_exists (p : string) (fs : FS) : bool :=
  match fs !! path_components p with
  | Some Dir => true
  | _ => false
  end.


(** [shutil.rmtree(p)]: removes the directory and everything below it. *)
Definition rmtree (p : list string) (fs : FS) : result FS :=
  match fs !! p with
  | Some Dir => mret (filter (λ kv, ¬ p `prefix_of` kv.1) fs)
  | Some (File _) => Raise (mk_exn NotADirectoryError "[Errno 20] Not a directory")
  | None => Raise (mk_exn FileNotFoundError "[Errno 2] No such file or directory")
  end.

(** ** Configuration objects built from literal constants *)

Definition MAX_NEW_TOKENS : nat := 2048.
Definition MODEL_NAME : string := "deepseek-ai/DeepSeek-R1-Distill-Qwen-1.5B".

(** Values of the [config] dict given to the experiment tracker. *)
Inductive cfg_value :=
  | CStr (s : string)
  | CInt (z : Z)
  | CFloat (q : Q).

(** The dict literal of lines 40-49. *)
Definition wandb_config : gmap string cfg_value :=
  {[ "model_name" := CStr MODEL_NAME;
     "learning_rate" := CFloat (5 # 100000);
     "batch_size" := CInt 1;
     "num_epochs" := CInt 2;
     "hardware" := CStr "Apple Silicon";
     "dataset" := CStr "medical-o1-reasoning-SFT";
     "lora_rank" := CInt 8;
     "lora_alpha" := CInt 16 ]}.


Record LoraConfig := mk_LoraConfig {
  lora_alpha : Z;
  lora_dropout : Q;
  r : Z;
  bias : string;
  task_type : string;
  target_modules : list string
}.

Record TrainingArguments := mk_TrainingArguments {
  output_dir : string;
  num_train_epochs : Z;
  per_device_train_batch_size : Z;
  gradient_accumulation_steps : Z;
  learning_rate : Q;
  weight_decay : Q;
  warmup_ratio : Q;
  logging_steps : Z;
  save_strategy : string;
  save_total_limit : Z;
  fp16 : bool;
  bf16 : bool;
  optim : string;
  report_to : string;
  gradient_checkpointing : bool;
  group_by_length : bool;
  max_grad_norm : Q;
  dataloader_num_workers : Z;
  remove_unused_columns : bool;
  run_name : string;
  deepspeed : option string;
  local_rank : Z;
  ddp_find_unused_parameters : option bool;
  torch_compile : bool
}.

Record DataCollatorForLanguageModeling := mk_DataCollator {
  collator_tokenizer : Tokenizer;
  mlm : bool
}.

(** Keyword arguments of [AutoModelForCausalLM.from_pretrained]. *)
Record ModelKwargs := mk_ModelKwargs {
  device_map : string;
  trust_remote_code : bool;
  torch_dtype : string;
  offload_folder : option string;
  offload_state_dict : option bool;
  use_cache : bool;
  max_memory : list (Z * string)
}.

(** Sampling arguments of the pipeline and of the generation call. *)
Record GenerationKwargs := mk_GenerationKwargs {
  max_new_tokens : nat;
  temperature : Q;
  top_p : Q;
  repetition_penalty : Q
}.

(** ** The libraries *)

(** The world a library call sees and changes: the file system and the
    state the libraries keep to themselves (loaded weights, the tracker's
    run, the operating system's entropy, the network). *)
Record World (X : Type) := mk_World { fs : FS; ext : X }.
Arguments mk_World {X} fs ext.
Arguments fs {X} w.
Arguments ext {X} w.

(** What a call leaves behind: a value or a raised exception, and the state
    after it. *)
Inductive outcome (S A : Type) :=
  | Normal (a : A) (s : S)
  | Raised (e : exn) (s : S).
Arguments Normal {S A} a s.
Arguments Raised {S A} e s.

Definition returns {S A} (o : outcome S A) : bool :=
  match o with
  | Normal _ _ => true
  | Raised _ _ => false
  end.

Definition state_of {S A} (o : outcome S A) : S :=
  match o with
  | Normal _ s => s
  | Raised _ s => s
  end.

(** What a call delivers to its caller, the state apart. *)
Definition value_of {S A} (o : outcome S A) : result A :=
  match o with
  | Normal a _ => Return a
  | Raised e _ => Raise e
  end.

Class Library := {
  Ext : Type;
  Model : Type;
  Pipeline : Type;
  Trainer : Type;
  Table : Type;
  (* warnings, transformers.logging *)
  warnings_filterwarnings : string → string → World Ext → outcome (World Ext) ();
  logging_set_verbosity_error : World Ext → outcome (World Ext) ();
  (* wandb *)
  wandb_init : string → gmap string cfg_value → World Ext → outcome (World Ext) ();
  wandb_Table : list string → list (list string) → World Ext → outcome (World Ext) Table;
  wandb_log : list (string * Table) → World Ext → outcome (World Ext) ();
  wandb_finish : World Ext → outcome (World Ext) ();
  (* platform, torch, os *)
  platform_processor : World Ext → string;
  mps_is_available : World Ext → bool;
  cuda_is_available : World Ext → bool;
  cpu_count : World Ext → option nat;
  (* datasets *)
  load_dataset : string → string → World Ext → outcome (World Ext) DatasetDict;
  train_test_split :
    Dataset → Q → Q → option Z → World Ext → outcome (World Ext) DatasetDict;
  (* transformers *)
  AutoTokenizer_from_pretrained :
    string → bool → option side → World Ext → outcome (World Ext) Tokenizer;
  AutoModelForCausalLM_from_pretrained :
    string → ModelKwargs → World Ext → outcome (World Ext) Model;
  has_enable_input_require_grads : Model → bool;
  enable_input_require_grads : Model → World Ext → outcome (World Ext) ();
  save_pretrained : Model → string → World Ext → outcome (World Ext) ();
  new_TrainingArguments : TrainingArguments → World Ext → outcome (World Ext) ();
  new_DataCollator : DataCollatorForLanguageModeling → World Ext → outcome (World Ext) ();
  pipeline :
    string → Model → Tokenizer → string → GenerationKwargs → option Z →
    World Ext → outcome (World Ext) Pipeline;
  pipeline_call :
    Pipeline → string → GenerationKwargs →
    World Ext → outcome (World Ext) (list (gmap string string));
  (* peft, trl *)
  new_LoraConfig : LoraConfig → World Ext → outcome (World Ext) ();
  new_SFTTrainer :
    Model → Dataset → LoraConfig → TrainingArguments →
    DataCollatorForLanguageModeling → option Tokenizer →
    World Ext → outcome (World Ext) Trainer;
  Trainer_model : Trainer → Model;
  Trainer_train : Trainer → World Ext → outcome (World Ext) ()
}.


(** ** The script's own effects *)

(** What the script does that can be watched from outside, in order: the
    lines it prints and the library calls it makes. *)
Inductive call :=
  | C_filterwarnings | C_set_verbosity_error
  | C_wandb_init | C_wandb_Table | C_wandb_log | C_wandb_finish
  | C_load_dataset | C_train_test_split | C_Dataset_map
  | C_AutoTokenizer_from_pretrained | C_AutoModelForCausalLM_from_pretrained
  | C_enable_input_require_grads | C_save_pretrained
  | C_TrainingArguments | C_DataCollator | C_pipeline | C_pipeline_call
  | C_LoraConfig | C_SFTTrainer | C_train.

Inductive event :=
  | EvPrint (text : string)
  | EvCall (c : call).

#[global] Instance call_eq_dec : EqDecision call.
Proof. solve_decision. Defined.

#[global] Instance event_eq_dec : EqDecision event.
Proof. solve_decision. Defined.

Section Script.
Context {L : Library}.

Record State := mk_State { world : World Ext; trace : list event }.

(** A statement or expression of the script. *)
Definition M (A : Type) : Type := State → outcome State A.

#[global] Instance M_ret : MRet M := λ A a s, Normal a s.
#[global] Instance M_bind : MBind M := λ A B f m s,
  match m s with
  | Normal a s' => f a s'
  | Raised e s' => Raised e s'
  end.

(** A pure expression that may raise. *)
Definition lift {A} (x : result A) : M A := λ s,
  match x with
  | Return a => Normal a s
  | Raise e => Raised e s
  end.

(** A library call: recorded in the trace, then answered by the library. *)
Definition lib {A} (c : call) (f : World Ext → outcome (World Ext) A) : M A := λ s,
  let t := trace s ++ [EvCall c] in
  match f (world s) with
  | Normal a w => Normal a (mk_State w t)
  | Raised e w => Raised e (mk_State w t)
  end.

(** A read of the environment. *)
Definition query {A} (f : World Ext → A) : M A := λ s, Normal (f (world s)) s.

(** [print(a, b, ...)]: the arguments separated by spaces, on standard
    output.  Writing to standard output is taken to succeed. *)
Definition print (args : list string) : M () := λ s,
  Normal () (mk_State (world s) (trace s ++ [EvPrint (String.concat " " args)])).

(** A change of the file system that may raise. *)
Definition on_fs (f : FS → result FS) : M () := λ s,
  match f (fs (world s)) with
  | Return fs' => Normal () (mk_State (mk_World fs' (ext (world s))) (trace s))
  | Raise e => Raised e s
  end.

(** [try: body except Exception as e: handler e]. *)
Definition try_except {A} (body : M A) (handler : exn → M A) : M A := λ s,
  match body s with
  | Normal a s' => Normal a s'
  | Raised e s' =>
      if is_Exception (exn_class e) then handler e s' else Raised e s'
  end.

(** [try: body finally: final]: [final] runs on every way out of [body]; an
    exception of [final] replaces whatever [body] left. *)
Definition try_finally {A} (body : M A) (final : M ()) : M A := λ s,
  match body s with
  | Normal a s' =>
      match final s' with
      | Normal _ s'' => Normal a s''
      | Raised e s'' => Raised e s''
      end
  | Raised e s' =>
      match final s' with
      | Normal _ s'' => Raised e s''
      | Raised e' s'' => Raised e' s''
      end
  end.

(** A library function modelled above as a pure function: the call is
    recorded and its result or exception delivered. *)
Definition lib_pure {A} (c : call) (x : result A) : M A :=
  lib c (λ w, match x with
              | Return a => Normal a w
              | Raise e => Raised e w
              end).

(** ** Device selection (lines 53-61) *)

Definition select_device : M string :=
  processor ← query platform_processor;
  mps ← (if String.eqb processor "arm" then query mps_is_available else mret false);
  if mps : bool then
    print ["Using Apple Silicon MPS (Metal Performance Shaders)"];;
    mret "mps"
  else
    cuda ← query cuda_is_available;
    if cuda : bool then
      print ["Using CUDA GPU"];;
      mret "cuda"
    else
      print ["Using CPU"];;
      mret "cpu".

(** ** prepare_dataset (lines 63-115) *)

(** [lambda x: {"text": format_instruction(x)}] of line 93. *)
Definition format_row (tokenizer : Tokenizer) (x : row) : result row :=
  text ← format_instruction tokenizer x;
  mret {[ "text" := VStr text ]}.

(** The tokenizer takes a [str]. *)
Definition as_text (v : value) : result string :=
  match v with
  | VStr s => mret s
  | _ => Raise (mk_exn ValueError "text input must be of type `str`")
  end.

(** The lambda of lines 100-106. *)
Definition tokenize_row (tokenizer : Tokenizer) (x : row) : result row :=
  v ← getitem x "text";
  text ← as_text v;
  tokenizer_call tokenizer text true PadMaxLength MAX_NEW_TOKENS.

(** Line 89: the split of the loaded training data. *)
Definition split_dataset (dataset : DatasetDict) : M DatasetDict :=
  train ← lift (getitem dataset "train");
  lib C_train_test_split (train_test_split train (9 # 10) (1 # 10) (Some 42%Z)).

(** Lines 91-115: what [prepare_dataset] does with the split [dataset]. *)
Definition prepare_split (tokenizer : Tokenizer) (dataset : DatasetDict) : M Dataset :=
  train ← lift (getitem dataset "train");
  columns ← lift (column_names <$> getitem dataset "train");
  num_proc ← query cpu_count;
  train_dataset ← lib_pure C_Dataset_map
    (Dataset_map (format_row tokenizer) columns num_proc train);
  num_proc ← query cpu_count;
  train_dataset ← lib_pure C_Dataset_map
    (Dataset_map (tokenize_row tokenizer) ["text"] num_proc train_dataset);
  print [nl +:+ "Using " +:+ pretty (length (rows train_dataset)) +:+
         " examples for training"];;
  print [nl +:+ "Sample formatted data:"];;
  train ← lift (getitem dataset "train");
  first ← lift (getindex "list" (rows train) 0);
  sample ← lift (format_instruction tokenizer first);
  print [sample];;
  mret train_dataset.

Definition prepare_dataset (tokenizer : Tokenizer) : M Dataset :=
  dataset ← lib C_load_dataset
    (load_dataset "FreedomIntelligence/medical-o1-reasoning-SFT" "en");
  train ← lift (getitem dataset "train");
  print ["Dataset loaded with " +:+ pretty (length (rows train)) +:+
         " training examples"];;
  dataset ← split_dataset dataset;
  prepare_split tokenizer dataset.

(** ** setup_model (lines 117-140) *)

(** The keyword arguments of lines 129-133. *)
Definition load_kwargs (mps : bool) : ModelKwargs :=
  {| device_map := if mps then "mps" else "auto";
     trust_remote_code := true;
     torch_dtype := "float16";
     offload_folder := None;
     offload_state_dict := None;
     use_cache := false;
     max_memory := [(0%Z, "24GB")] |}.

Definition setup_model : M (Model * Tokenizer) :=
  let model_name := MODEL_NAME in
  tokenizer ← lib C_AutoTokenizer_from_pretrained
    (AutoTokenizer_from_pretrained model_name true None);
  let tokenizer :=
    mk_tokenizer (eos_token tokenizer) (eos_token tokenizer) (padding_side tokenizer)
      (encode tokenizer) (convert_tokens_to_ids tokenizer) in
  let tokenizer :=
    mk_tokenizer (eos_token tokenizer) (pad_token tokenizer) Right
      (encode tokenizer) (convert_tokens_to_ids tokenizer) in
  mps ← query mps_is_available;
  model ← lib C_AutoModelForCausalLM_from_pretrained
    (AutoModelForCausalLM_from_pretrained model_name (load_kwargs mps));
  (if has_enable_input_require_grads model
   then lib C_enable_input_require_grads (enable_input_require_grads model)
   else mret ());;
  mret (model, tokenizer).

(** ** setup_trainer (lines 142-199) *)

(** The local [peft_config] of lines 145-152. *)
Definition peft_config : LoraConfig :=
  {| lora_alpha := 16;
     lora_dropout := 1 # 10;
     r := 4;
     bias := "none";
     task_type := "CAUSAL_LM";
     target_modules := ["q_proj"; "v_proj"] |}.

(** The local [training_args] of lines 155-181. *)
Definition training_args : TrainingArguments :=
  {| output_dir := "deepseek-r1-medical-finetuning";
     num_train_epochs := 1;
     per_device_train_batch_size := 2;
     gradient_accumulation_steps := 4;
     learning_rate := 1 # 10000;
     weight_decay := 1 # 100;
     warmup_ratio := 3 # 100;
     logging_steps := 10;
     save_strategy := "epoch";
     save_total_limit := 1;
     fp16 := true;
     bf16 := false;
     optim := "adamw_torch_fused";
     report_to := "wandb";
     gradient_checkpointing := true;
     group_by_length := true;
     max_grad_norm := 3 # 10;
     dataloader_num_workers := 0;
     remove_unused_columns := true;
     run_name := "deepseek-medical-tutorial";
     deepspeed := None;
     local_rank := -1;
     ddp_find_unused_parameters := None;
     torch_compile := false |}.

Definition setup_trainer (model : Model) (tokenizer : Tokenizer)
    (train_dataset : Dataset) (eval_dataset : option Dataset) : M Trainer :=
  lib C_LoraConfig (new_LoraConfig peft_config);;
  lib C_TrainingArguments (new_TrainingArguments training_args);;
  let data_collator := {| collator_tokenizer := tokenizer; mlm := false |} in
  lib C_DataCollator (new_DataCollator data_collator);;
  trainer ← lib C_SFTTrainer
    (new_SFTTrainer model train_dataset peft_config training_args data_collator None);
  mret trainer.

(** ** test_model (lines 201-268) *)

Definition offload : string := "offload".

Definition test_problem : string :=
  "Please reason step by step:" +:+ nl +:+ nl +:+
  "A 45-year-old patient presents with sudden onset chest pain, shortness of breath, and anxiety. The pain is described as sharp and worsens with deep breathing. What is the most likely diagnosis and what immediate tests should be ordered?".

Definition sampling : GenerationKwargs :=
  {| max_new_tokens := MAX_NEW_TOKENS;
     temperature := 6 # 10;
     top_p := 95 # 100;
     repetition_penalty := 115 # 100 |}.

(** The keyword arguments of lines 209-215. *)
Definition reload_kwargs : ModelKwargs :=
  {| device_map := "auto";
     trust_remote_code := true;
     torch_dtype := "float16";
     offload_folder := Some offload;
     offload_state_dict := Some true;
     use_cache := false;
     max_memory := [(0%Z, "24GB")] |}.

(** [result[0]["generated_text"]]. *)
Definition generated_text (outputs : list (gmap string string)) : result string :=
  first ← getindex "list" outputs 0;
  getitem first "generated_text".

(** The [try] body, lines 243-260. *)
Definition test_model_try (pipe : Pipeline) : M () :=
  outputs ← lib C_pipeline_call (pipeline_call pipe test_problem sampling);
  print [nl +:+ "Test Problem:"; test_problem];;
  text ← lift (generated_text outputs);
  print [nl +:+ "Model Response:"; text];;
  text ← lift (generated_text outputs);
  table ← lib C_wandb_Table
    (wandb_Table ["Test Case"; "Model Response"] [[test_problem; text]]);
  lib C_wandb_log (wandb_log [("test_example", table)]).

Definition saved_but_failed : string :=
  "Model was saved successfully but testing failed. You can load the model separately for testing.".

(** The [except Exception as e] handler, lines 262-263. *)
Definition test_model_except (e : exn) : M () :=
  print [nl +:+ "Error during testing: " +:+ exn_str e];;
  print [saved_but_failed].

(** The [finally] clause, lines 266-268. *)
Definition test_model_finally : M () :=
  there ← query (λ w, path_exists (path_components offload) (fs w));
  if there : bool then on_fs (rmtree (path_components offload)) else mret ().

(** The [try] statement, lines 242-268. *)
Definition test_model_guarded (pipe : Pipeline) : M () :=
  try_finally (try_except (test_model_try pipe) test_model_except)
    test_model_finally.

Definition test_model (model_path : string) : M () :=
  on_fs (makedirs (path_components offload) true);;
  model ← lib C_AutoModelForCausalLM_from_pretrained
    (AutoModelForCausalLM_from_pretrained model_path reload_kwargs);
  tokenizer ← lib C_AutoTokenizer_from_pretrained
    (AutoTokenizer_from_pretrained MODEL_NAME true (Some Right));
  pipe ← lib C_pipeline
    (pipeline "text-generation" model tokenizer "auto" sampling
       (convert_tokens_to_ids tokenizer <$> eos_token tokenizer));
  test_model_guarded pipe.

(** ** main (lines 270-292) *)

Definition fine_tuned_model : string := "./fine_tuned_model".

(** The [try] body, lines 273-289. *)
Definition main_try : M () :=
  print [nl +:+ "Setting up model..."];;
  '(model, tokenizer) ← setup_model;
  print [nl +:+ "Preparing dataset..."];;
  train_dataset ← prepare_dataset tokenizer;
  print [nl +:+ "Setting up trainer..."];;
  trainer ← setup_trainer model tokenizer train_dataset None;
  print [nl +:+ "Starting training..."];;
  lib C_train (Trainer_train trainer);;
  print [nl +:+ "Saving model..."];;
  lib C_save_pretrained (save_pretrained (Trainer_model trainer) fine_tuned_model);;
  print [nl +:+ "Testing model..."];;
  test_model fine_tuned_model.

(** The [finally] clause, line 292. *)
Definition main_finally : M () := lib C_wandb_finish wandb_finish.

Definition main : M () := try_finally main_try main_finally.

(** ** The module run as a script (lines 32-61 and 294-295) *)

(** The statements the module runs when it is loaded, lines 32-61; the
    result is the global [device]. *)
Definition module_body : M string :=
  lib C_filterwarnings (warnings_filterwarnings "ignore" "FutureWarning");;
  lib C_filterwarnings (warnings_filterwarnings "ignore" "UserWarning");;
  lib C_set_verbosity_error logging_set_verbosity_error;;
  lib C_wandb_init (wandb_init "deepseek-r1-medical-finetuning" wandb_config);;
  select_device.

(** Lines 294-295; an exception that leaves [script] is uncaught and ends
    the process. *)
Definition script (name : string) : M () :=
  device ← module_body;
  if String.eqb name "__main__" then main else mret ().

(** The state after [print(text)]. *)
Definition printed (s : State) (text : string) : State :=
  mk_State (world s) (trace s ++ [EvPrint text]).

(** A statement only ever adds to the trace. *)
Definition appends {A} (m : M A) : Prop :=
  ∀ s, ∃ evs, trace (state_of (m s)) = trace s ++ evs.

(** A statement never makes the library call [c]. *)
Definition avoids (c : call) {A} (m : M A) : Prop :=
  ∀ s, ∃ evs, trace (state_of (m s)) = trace s ++ evs ∧ EvCall c ∉ evs.

End Script.

(** * A small library to run the script against

    A simulated set of libraries, driven by a scenario that says which calls
    fail and what the data and the generated text are.  The hidden state is a
    counter standing for the operating system's entropy; an unseeded split
    draws from it, a seeded one does not.  Saving a model writes its
    directory, loading with an offload folder writes into that folder. *)

Record Scenario := mk_Scenario {
  sc_tokenizer : result Tokenizer;
  sc_model : option exn;
  sc_dataset : result DatasetDict;
  sc_train : option exn;
  sc_generate : result (list (gmap string string));
  sc_log : option exn;
  sc_finish : option exn
}.

Definition answer {X A} (x : result A) (w : World X) : outcome (World X) A :=
  match x with
  | Return a => Normal a w
  | Raise e => Raised e w
  end.

Definition may_fail {X} (e : option exn) (w : World X) : outcome (World X) () :=
  match e with
  | None => Normal () w
  | Some e => Raised e w
  end.

Definition write_file {X} (dir : string) (name data : string) (w : World X) : World X :=
  mk_World (<[path_components dir ++ [name] := File data]>
              (<[path_components dir := Dir]> (fs w))) (ext w).

Definition sim_split (d : Dataset) (train_size test_size : Q) (seed : option Z)
    (w : World nat) : outcome (World nat) DatasetDict :=
  let k := match seed with Some z => Z.to_nat z | None => ext w end in
  let rs := rotate k (rows d) in
  let n_train := Z.to_nat (Qfloor (train_size * inject_Z (Z.of_nat (length rs)))) in
  Normal {[ "train" := mk_dataset (column_names d) (take n_train rs);
            "test" := mk_dataset (column_names d) (drop n_train rs) ]}
         (mk_World (fs w) (S (ext w))).

Definition sim (sc : Scenario) : Library :=
  {| Ext := nat;
     Model := string;
     Pipeline := ();
     Trainer := string;
     Table := list (list string);
     warnings_filterwarnings := λ _ _ w, Normal () w;
     logging_set_verbosity_error := λ w, Normal () w;
     wandb_init := λ _ _ w, Normal () w;
     wandb_Table := λ _ data w, Normal data w;
     wandb_log := λ _ w, may_fail (sc_log sc) w;
     wandb_finish := λ w, may_fail (sc_finish sc) w;
     platform_processor := λ _, "arm";
     mps_is_available := λ _, true;
     cuda_is_available := λ _, false;
     cpu_count := λ _, Some 8%nat;
     load_dataset := λ _ _ w, answer (sc_dataset sc) w;
     train_test_split := sim_split;
     AutoTokenizer_from_pretrained := λ _ _ side0 w,
       answer (t ← sc_tokenizer sc;
               mret (mk_tokenizer (eos_token t) (pad_token t)
                       (default (padding_side t) side0)
                       (encode t) (convert_tokens_to_ids t))) w;
     AutoModelForCausalLM_from_pretrained := λ name kw w,
       match sc_model sc with
       | Some e => Raised e w
       | None =>
           Normal name
             match offload_folder kw with
             | Some dir => write_file dir "weights.dat" "w" w
             | None => w
             end
       end;
     has_enable_input_require_grads := λ _, true;
     enable_input_require_grads := λ _ w, Normal () w;
     save_pretrained := λ _ dir w,
       Normal () (write_file dir "adapter_model.safetensors" "lora" w);
     new_TrainingArguments := λ _ w, Normal () w;
     new_DataCollator := λ _ w, Normal () w;
     pipeline := λ _ _ _ _ _ _ w, Normal () w;
     pipeline_call := λ _ _ _ w, answer (sc_generate sc) w;
     new_LoraConfig := λ _ w, Normal () w;
     new_SFTTrainer := λ m _ _ _ _ _ w, Normal m w;
     Trainer_model := λ t, t;
     Trainer_train := λ _ w, may_fail (sc_train sc) w |}.

(** A byte-level tokenizer: one id per character. *)
Definition byte_tokenizer : Tokenizer :=
  {| eos_token := Some "<eos>";
     pad_token := None;
     padding_side := Left;
     encode := λ s, (λ c, Z.of_nat (nat_of_ascii c)) <$> list_ascii_of_string s;
     convert_tokens_to_ids := λ _, 0%Z |}.

Definition sample_row (q c a : string) : row :=
  {[ "Question" := VStr q; "Complex_CoT" := VStr c; "Response" := VStr a ]}.

Definition sample_columns : list string := ["Question"; "Complex_CoT"; "Response"].

Definition sample_data : Dataset :=
  mk_dataset sample_columns
    [ sample_row "Q1" "because" "A1"; sample_row "Q2" "since" "A2";
      sample_row "Q3" "as" "A3" ].

(** Everything succeeds; the model answers ["rest"]. *)
Definition fair_weather : Scenario :=
  {| sc_tokenizer := Return byte_tokenizer;
     sc_model := None;
     sc_dataset := Return {[ "train" := sample_data ]};
     sc_train := None;
     sc_generate := Return [ {[ "generated_text" := "rest" ]} ];
     sc_log := None;
     sc_finish := None |}.

(** The questions of the training part of a split, in order. *)
Definition train_questions {S} (o : outcome S DatasetDict) : list (option value) :=
  match o with
  | Normal dataset _ =>
      match dataset !! "train" with
      | Some d => (λ x : row, x !! "Question") <$> rows d
      | None => []
      end
  | Raised _ _ => []
  end.

(** The tokenizer as [setup_model] leaves it: padding with the end-of-sequence
    token, on the right. *)
Definition padded_tokenizer : Tokenizer :=
  mk_tokenizer (Some "<eos>") (Some "<eos>") Right (encode byte_tokenizer)
    (convert_tokens_to_ids byte_tokenizer).

(** A record without its answer. *)
Definition unanswered : row :=
  {[ "Question" := VStr "Q4"; "Complex_CoT" := VStr "hm" ]}.

(** Training fails. *)
Definition training_fails : Scenario :=
  {| sc_tokenizer := Return byte_tokenizer;
     sc_model := None;
     sc_dataset := Return {[ "train" := sample_data ]};
     sc_train := Some (mk_exn RuntimeError "MPS backend out of memory");
     sc_generate := Return [ {[ "generated_text" := "rest" ]} ];
     sc_log := None;
     sc_finish := None |}.

(** Loading a model fails. *)
Definition load_fails : Scenario :=
  {| sc_tokenizer := Return byte_tokenizer;
     sc_model := Some (mk_exn OSError "Error no file named model.safetensors found");
     sc_dataset := Return {[ "train" := sample_data ]};
     sc_train := None;
     sc_generate := Return [ {[ "generated_text" := "rest" ]} ];
     sc_log := None;
     sc_finish := None |}.

Definition empty_world : World nat := mk_World ∅ 0%nat.





Definition start {L : Library} (w : World Ext) : State := mk_State w [].

(** The hub has no training split. *)
Definition test_only : Scenario :=
  {| sc_tokenizer := Return byte_tokenizer;
     sc_model := None;
     sc_dataset := Return {[ "test" := sample_data ]};
     sc_train := None;
     sc_generate := Return [ {[ "generated_text" := "rest" ]} ];
     sc_log := None;
     sc_finish := None |}.



(** A run of the steps after the split on the three sample records. *)
Definition sample_split_run : outcome State Dataset :=
  prepare_split (L := sim fair_weather) padded_tokenizer {[ "train" := sample_data ]}
    (start (L := sim fair_weather) empty_world).

(** A run of [prepare_dataset] on the three sample records. *)
Definition sample_run : outcome State Dataset :=
  prepare_dataset (L := sim fair_weather) padded_tokenizer
    (start (L := sim fair_weather) empty_world).

(** * Properties *)

(** ** Strings *)

Lemma append_nil (s : string) : "" +:+ s = s.
Proof. reflexivity. Qed.

Lemma append_cons (a : ascii) (s t : string) : String a s +:+ t = String a (s +:+ t).
Proof. reflexivity. Qed.

Lemma append_nil_r (s : string) : s +:+ "" = s.
Proof. induction s as [|a s IH]; [done | by rewrite append_cons, IH]. Qed.

Lemma append_assoc (a b c : string) : (a +:+ b) +:+ c = a +:+ (b +:+ c).
Proof. induction a as [|x a IH]; [done | by rewrite !append_cons, IH]. Qed.

Lemma prefix_append (t post : string) : String.prefix t (t +:+ post) = true.
Proof.
  induction t as [|a t IH].
  - rewrite append_nil. by destruct post.
  - rewrite append_cons. simpl.
    destruct (ascii_dec a a) as [_|Hne]; [exact IH | by destruct Hne].
Qed.

Lemma str_contains_unfold (s t : string) :
  str_contains s t =
  String.prefix t s ||
  match s with
  | EmptyString => false
  | String _ s' => str_contains s' t
  end.
Proof. by destruct s. Qed.

Lemma str_contains_here (t post : string) : str_contains (t +:+ post) t = true.
Proof. by rewrite str_contains_unfold, prefix_append. Qed.

Lemma str_contains_append (pre t post : string) :
  str_contains (pre +:+ t +:+ post) t = true.
Proof.
  induction pre as [|a pre IH].
  - rewrite append_nil. apply str_contains_here.
  - rewrite append_cons, str_contains_unfold, IH. apply orb_true_r.
Qed.

Lemma str_contains_end (pre t : string) : str_contains (pre +:+ t) t = true.
Proof.
  rewrite <- (append_nil_r t) at 1. apply str_contains_append.
Qed.

(** ** The prompt formatter *)

(** C2: for a record that has the three fields, [format_instruction]
    returns a text that is the fixed template around the fields as an
    f-string renders them, and so contains each piece of the template, the
    question and the answer; a field that is a string is rendered as it is
    ([py_format (VStr q)] is [q]), so the text contains the question and the
    answer verbatim. *)
Theorem format_instruction_contains (tokenizer : Tokenizer) (sample : row)
    (question complex_cot response : value) :
  sample !! "Question" = Some question →
  sample !! "Complex_CoT" = Some complex_cot →
  sample !! "Response" = Some response →
  ∃ text,
    format_instruction tokenizer sample = Return text ∧
    text = instruction_header +:+ py_format question +:+
           response_header +:+ py_format complex_cot +:+
           think_close +:+ py_format response +:+
           nl +:+ py_format_opt (eos_token tokenizer) ∧
    str_contains text instruction_header = true ∧
    str_contains text response_header = true ∧
    str_contains text think_close = true ∧
    str_contains text (py_format question) = true ∧
    str_contains text (py_format response) = true ∧
    (∀ q, question = VStr q → str_contains text q = true) ∧
    (∀ a, response = VStr a → str_contains text a = true).
Proof.
  intros Hq Hc Hr. eexists. split.
  { unfold format_instruction, getitem. rewrite Hq, Hc, Hr. reflexivity. }
  split; [reflexivity|].
  set (e := nl +:+ py_format_opt (eos_token tokenizer)).
  set (c := py_format complex_cot).
  assert (str_contains
            (instruction_header +:+ py_format question +:+ response_header +:+ c +:+
             think_close +:+ py_format response +:+ e) (py_format response) = true)
    as Hresponse.
  { rewrite <- (append_assoc instruction_header), <- (append_assoc _ response_header),
      <- (append_assoc _ c), <- (append_assoc _ think_close).
    apply str_contains_append. }
  split; [apply str_contains_here|].
  split.
  { rewrite <- (append_assoc instruction_header). apply str_contains_append. }
  split.
  { rewrite <- (append_assoc instruction_header), <- (append_assoc _ response_header),
      <- (append_assoc _ c).
    apply str_contains_append. }
  split; [apply str_contains_append|].
  split; [exact Hresponse|].
  split.
  - intros q ->. apply str_contains_append.
  - intros a ->. exact Hresponse.
Qed.

(** The first sample record and the byte-level tokenizer. *)
Lemma format_instruction_contains_witness :
  ∃ text,
    format_instruction byte_tokenizer (sample_row "Q1" "because" "A1") = Return text ∧
    text = instruction_header +:+ "Q1" +:+ response_header +:+ "because" +:+
           think_close +:+ "A1" +:+ nl +:+ "<eos>" ∧
    str_contains text instruction_header = true ∧
    str_contains text response_header = true ∧
    str_contains text think_close = true ∧
    str_contains text "Q1" = true ∧
    str_contains text "A1" = true ∧
    (∀ q, VStr "Q1" = VStr q → str_contains text q = true) ∧
    (∀ a, VStr "A1" = VStr a → str_contains text a = true).
Proof.
  apply (format_instruction_contains byte_tokenizer (sample_row "Q1" "because" "A1")
           (VStr "Q1") (VStr "because") (VStr "A1")); reflexivity.
Defined.

(** ** The file system *)




(** ** Datasets and tokenization *)

Lemma tokenizer_call_fixed_length (tok : Tokenizer) (text : string) (n : nat) (y : row) :
  tokenizer_call tok text true PadMaxLength n = Return y →
  token_length_is n y = true.
Proof.
  unfold tokenizer_call, token_length_is.
  destruct (pad_token tok) as [p|]; [|discriminate].
  destruct (padding_side tok); intros [= <-];
    rewrite lookup_insert_eq, lookup_insert_ne, lookup_singleton_eq by done;
    rewrite !length_app, !length_replicate, length_take;
    apply andb_true_iff; split; apply Nat.eqb_eq; lia.
Qed.

Lemma token_length_is_union (n : nat) (y z : row) :
  token_length_is n y = true → token_length_is n (y ∪ z) = true.
Proof.
  unfold token_length_is.
  destruct (y !! "input_ids") as [v1|] eqn:H1; [|discriminate].
  destruct (y !! "attention_mask") as [v2|] eqn:H2; [|by destruct v1].
  by rewrite (lookup_union_Some_l y z _ _ H1), (lookup_union_Some_l y z _ _ H2).
Qed.

Lemma tokenize_row_fixed_length (tok : Tokenizer) (x y : row) :
  tokenize_row tok x = Return y → token_length_is MAX_NEW_TOKENS y = true.
Proof.
  unfold tokenize_row.
  destruct (getitem x "text") as [v|e]; [|discriminate].
  destruct v as [|text|l]; try discriminate.
  apply tokenizer_call_fixed_length.
Qed.

Lemma map_rows_Forall (P : row → Prop) (f : row → result row) (remove : list string)
    (xs rs : list row) :
  (∀ x y, f x = Return y → P (y ∪ remove_columns_row remove x)) →
  map_rows f remove xs = Return rs → Forall P rs.
Proof.
  intros Hf. revert rs. induction xs as [|x xs IH]; intros rs; simpl.
  - intros [= <-]. constructor.
  - destruct (f x) as [y|e] eqn:Hy; [|discriminate]. simpl.
    destruct (map_rows f remove xs) as [ys|e]; [|discriminate].
    intros [= <-]. constructor; [by apply Hf | by apply IH].
Qed.

Lemma Dataset_map_rows (f : row → result row) (remove : list string)
    (num_proc : option nat) (d d' : Dataset) :
  Dataset_map f remove num_proc d = Return d' →
  map_rows f remove (rows d) = Return (rows d').
Proof.
  unfold Dataset_map.
  destruct (map_rows f remove (rows d)) as [rs|e] eqn:Hrs; [|discriminate].
  destruct rs as [|r rs]; intros [= <-]; [|done].
  destruct (rows d) as [|x xs]; [done|]. simpl in Hrs.
  destruct (f x); [|discriminate]. simpl in Hrs.
  destruct (map_rows f remove xs); discriminate.
Qed.

Lemma format_instruction_missing (tokenizer : Tokenizer) (sample : row) :
  sample !! "Question" = None ∨ sample !! "Complex_CoT" = None ∨
  sample !! "Response" = None →
  ∃ k, k ∈ ["Question"; "Complex_CoT"; "Response"] ∧ sample !! k = None ∧
       format_instruction tokenizer sample = Raise (mk_exn KeyError (repr_key k)).
Proof.
  intros Hmiss. unfold format_instruction, getitem.
  destruct (sample !! "Question") as [q|] eqn:Hq.
  2: { exists "Question". split; [apply list_elem_of_In; simpl; tauto|]. by split. }
  destruct (sample !! "Complex_CoT") as [c|] eqn:Hc.
  2: { exists "Complex_CoT". split; [apply list_elem_of_In; simpl; tauto|]. by split. }
  destruct (sample !! "Response") as [a|] eqn:Ha.
  2: { exists "Response". split; [apply list_elem_of_In; simpl; tauto|]. by split. }
  destruct Hmiss as [?|[?|?]]; discriminate.
Qed.

Lemma format_row_raises_KeyError (tokenizer : Tokenizer) (x : row) (e : exn) :
  format_row tokenizer x = Raise e → exn_class e = KeyError.
Proof.
  unfold format_row, format_instruction, getitem.
  destruct (x !! "Question"); [|by intros [= <-]].
  destruct (x !! "Complex_CoT"); [|by intros [= <-]].
  destruct (x !! "Response"); [discriminate | by intros [= <-]].
Qed.

Lemma map_rows_missing_field (tokenizer : Tokenizer) (remove : list string)
    (xs : list row) (sample : row) :
  sample ∈ xs →
  (∃ e, format_instruction tokenizer sample = Raise e) →
  ∃ e, map_rows (format_row tokenizer) remove xs = Raise e ∧ exn_class e = KeyError.
Proof.
  intros Hin [e0 He0]. induction xs as [|x xs IH]; [by apply elem_of_nil in Hin|].
  simpl. destruct (format_row tokenizer x) as [y|e] eqn:Hx.
  - apply elem_of_cons in Hin as [->|Hin].
    { unfold format_row in Hx. by rewrite He0 in Hx. }
    destruct (IH Hin) as (e & -> & He). by exists e.
  - exists e. split; [done|]. by eapply format_row_raises_KeyError.
Qed.

(** ** Control flow *)

Section Flow.
Context {L : Library}.

Lemma bind_Normal {A B} (m : M A) (f : A → M B) s a s' :
  m s = Normal a s' → (m ≫= f) s = f a s'.
Proof. intros H. unfold mbind, M_bind. by rewrite H. Qed.

Lemma bind_Raised {A B} (m : M A) (f : A → M B) s e s' :
  m s = Raised e s' → (m ≫= f) s = Raised e s'.
Proof. intros H. unfold mbind, M_bind. by rewrite H. Qed.

Lemma bind_inv_Normal {A B} (m : M A) (f : A → M B) s b s' :
  (m ≫= f) s = Normal b s' → ∃ a s1, m s = Normal a s1 ∧ f a s1 = Normal b s'.
Proof.
  unfold mbind, M_bind. destruct (m s) as [a s1|e s1]; intros H.
  - by exists a, s1.
  - discriminate.
Qed.

Lemma bind_inv_Raised {A B} (m : M A) (f : A → M B) s e s' :
  (m ≫= f) s = Raised e s' →
  m s = Raised e s' ∨ ∃ a s1, m s = Normal a s1 ∧ f a s1 = Raised e s'.
Proof.
  unfold mbind, M_bind. destruct (m s) as [a s1|e1 s1]; intros H.
  - right. by exists a, s1.
  - left. by injection H as -> ->.
Qed.

Lemma raised_by_value {S A} (o : outcome S A) (e : exn) :
  value_of o = Raise e → o = Raised e (state_of o).
Proof. destruct o; simpl; congruence. Qed.

Lemma print_one (text : string) (s : State) :
  print [text] s = Normal () (printed s text).
Proof. reflexivity. Qed.

Lemma appends_ret {A} (a : A) : appends (mret a : M A).
Proof. intros s. exists []. simpl. by rewrite app_nil_r. Qed.

Lemma appends_bind {A B} (m : M A) (f : A → M B) :
  appends m → (∀ a, appends (f a)) → appends (m ≫= f).
Proof.
  intros Hm Hf s. destruct (Hm s) as [evs Hevs].
  unfold mbind, M_bind. destruct (m s) as [a s1|e s1]; simpl in *.
  - destruct (Hf a s1) as [evs' Hevs']. exists (evs ++ evs').
    by rewrite Hevs', Hevs, app_assoc.
  - eauto.
Qed.

Lemma appends_lift {A} (x : result A) : appends (lift x).
Proof. intros s. exists []. destruct x; simpl; by rewrite app_nil_r. Qed.

Lemma appends_lib {A} (c : call) (f : World Ext → outcome (World Ext) A) :
  appends (lib c f).
Proof. intros s. exists [EvCall c]. unfold lib. by destruct (f (world s)). Qed.

Lemma appends_lib_pure {A} (c : call) (x : result A) : appends (lib_pure c x).
Proof. apply appends_lib. Qed.

Lemma appends_query {A} (f : World Ext → A) : appends (query f).
Proof. intros s. exists []. simpl. by rewrite app_nil_r. Qed.

Lemma appends_print (args : list string) : appends (print args).
Proof. intros s. by eexists. Qed.

Lemma appends_on_fs (f : FS → result FS) : appends (on_fs f).
Proof.
  intros s. exists []. unfold on_fs.
  destruct (f (fs (world s))); simpl; by rewrite app_nil_r.
Qed.

Lemma appends_try_except {A} (body : M A) (handler : exn → M A) :
  appends body → (∀ e, appends (handler e)) → appends (try_except body handler).
Proof.
  intros Hb Hh s. destruct (Hb s) as [evs Hevs].
  unfold try_except. destruct (body s) as [a s1|e s1]; simpl in *; [eauto|].
  destruct (is_Exception (exn_class e)); simpl; [|eauto].
  destruct (Hh e s1) as [evs' Hevs']. exists (evs ++ evs').
  by rewrite Hevs', Hevs, app_assoc.
Qed.

Lemma appends_try_finally {A} (body : M A) (final : M ()) :
  appends body → appends final → appends (try_finally body final).
Proof.
  intros Hb Hf s. destruct (Hb s) as [evs Hevs].
  unfold try_finally.
  destruct (body s) as [a s1|e s1]; simpl in *;
    destruct (Hf s1) as [evs' Hevs'];
    destruct (final s1) as [[] s2|e2 s2]; simpl in *;
    exists (evs ++ evs'); by rewrite Hevs', Hevs, app_assoc.
Qed.

Lemma appends_if {A} (b : bool) (m1 m2 : M A) :
  appends m1 → appends m2 → appends (if b then m1 else m2).
Proof. by destruct b. Qed.

End Flow.

Create HintDb appends discriminated.

#[export] Hint Resolve appends_ret appends_lift appends_lib appends_lib_pure
  appends_query appends_print appends_on_fs : appends.

Ltac appends_steps :=
  repeat first
    [ apply appends_bind; [|intros ?]
    | apply appends_try_finally
    | apply appends_try_except; [|intros ?]
    | apply appends_if
    | match goal with |- appends (let '(_, _) := ?p in _) => destruct p end
    | solve [auto with appends] ].

(** ** The script *)

Section Properties.
Context {L : Library}.

Lemma select_device_appends : appends select_device.
Proof. unfold select_device. appends_steps. Qed.

Lemma setup_model_appends : appends setup_model.
Proof. unfold setup_model. appends_steps. Qed.

Lemma prepare_dataset_appends tokenizer : appends (prepare_dataset tokenizer).
Proof. unfold prepare_dataset, split_dataset, prepare_split. appends_steps. Qed.

Lemma setup_trainer_appends model tokenizer train_dataset eval_dataset :
  appends (setup_trainer model tokenizer train_dataset eval_dataset).
Proof. unfold setup_trainer. appends_steps. Qed.

Lemma test_model_appends model_path : appends (test_model model_path).
Proof.
  unfold test_model, test_model_guarded, test_model_try, test_model_except,
    test_model_finally.
  appends_steps.
Qed.

Lemma main_try_appends : appends main_try.
Proof.
  unfold main_try.
  pose proof setup_model_appends. pose proof prepare_dataset_appends.
  pose proof setup_trainer_appends. pose proof test_model_appends.
  appends_steps.
Qed.

(** C10: whatever the body of [main] does, return or raise at any stage,
    the last thing [main] does before it returns or raises is the call of
    [wandb.finish]. *)
Theorem main_always_finishes (s : State) :
  ∃ evs, trace (state_of (main s)) = trace s ++ evs ++ [EvCall C_wandb_finish].
Proof.
  destruct (main_try_appends s) as [evs Hevs]. exists evs.
  unfold main, try_finally, main_finally, lib.
  destruct (main_try s) as [[] s1|e s1]; simpl in Hevs;
    destruct (wandb_finish (world s1)) as [[] w|e' w]; simpl;
    by rewrite Hevs, app_assoc.
Qed.

(** *** The smoke test and its offload directory *)





(** *** The error boundary of the smoke test *)



(** *** Configuration *)


(** C9: [setup_trainer] does not look at [eval_dataset]: any two values give
    the same computation, hence the same trainer; and what [prepare_dataset]
    does after the split depends on the ["train"] part of the split only, so
    the ["test"] part is never used. *)
Theorem eval_dataset_is_ignored :
  (∀ (model : Model) (tokenizer : Tokenizer) (train_dataset : Dataset)
     (eval_dataset1 eval_dataset2 : option Dataset),
     setup_trainer model tokenizer train_dataset eval_dataset1 =
     setup_trainer model tokenizer train_dataset eval_dataset2) ∧
  (∀ (tokenizer : Tokenizer) (dataset1 dataset2 : DatasetDict) (s : State),
     dataset1 !! "train" = dataset2 !! "train" →
     prepare_split tokenizer dataset1 s = prepare_split tokenizer dataset2 s).
Proof.
  split.
  - reflexivity.
  - intros tokenizer dataset1 dataset2 s Htrain.
    unfold prepare_split, getitem. by rewrite Htrain.
Qed.

(** *** The split *)


(** *** The dataset *)

Lemma prepare_split_fixed_length (tokenizer : Tokenizer) (dataset : DatasetDict)
    (s s' : State) (d : Dataset) :
  prepare_split tokenizer dataset s = Normal d s' →
  Forall (λ x, token_length_is MAX_NEW_TOKENS x = true) (rows d).
Proof.
  intros H. unfold prepare_split in H.
  apply bind_inv_Normal in H as (train & s1 & _ & H).
  apply bind_inv_Normal in H as (columns & s2 & _ & H).
  apply bind_inv_Normal in H as (n1 & s3 & _ & H).
  apply bind_inv_Normal in H as (d1 & s4 & _ & H).
  apply bind_inv_Normal in H as (n2 & s5 & _ & H).
  apply bind_inv_Normal in H as (d2 & s6 & Hmap & H).
  apply bind_inv_Normal in H as ([] & s7 & _ & H).
  apply bind_inv_Normal in H as ([] & s8 & _ & H).
  apply bind_inv_Normal in H as (train' & s9 & _ & H).
  apply bind_inv_Normal in H as (first & s10 & _ & H).
  apply bind_inv_Normal in H as (sample & s11 & _ & H).
  apply bind_inv_Normal in H as ([] & s12 & _ & H).
  injection H as <- _.
  unfold lib_pure, lib in Hmap.
  destruct (Dataset_map _ _ _ d1) as [d2'|e] eqn:Hd2; [|discriminate].
  injection Hmap as -> _.
  apply Dataset_map_rows in Hd2.
  apply (map_rows_Forall _ _ _ _ _ (λ x y Hy,
           token_length_is_union _ _ _ (tokenize_row_fixed_length tokenizer x y Hy)) Hd2).
Qed.

(** C5: when [prepare_dataset] returns, every row of the training dataset
    it returns holds token ids, and an attention mask, of exactly
    [MAX_NEW_TOKENS] = 2048 entries: the tokenizer is called with truncation
    and with padding to that length. *)
Theorem tokenized_rows_have_fixed_length (tokenizer : Tokenizer) (s s' : State)
    (d : Dataset) :
  prepare_dataset tokenizer s = Normal d s' →
  MAX_NEW_TOKENS = 2048%nat ∧
  Forall (λ x, token_length_is MAX_NEW_TOKENS x = true) (rows d).
Proof.
  intros H. split; [reflexivity|]. unfold prepare_dataset in H.
  apply bind_inv_Normal in H as (dataset & s1 & _ & H).
  apply bind_inv_Normal in H as (train & s2 & _ & H).
  apply bind_inv_Normal in H as ([] & s3 & _ & H).
  apply bind_inv_Normal in H as (split & s4 & _ & H).
  by eapply prepare_split_fixed_length.
Qed.

Lemma prepare_split_missing_field (tokenizer : Tokenizer) (dataset : DatasetDict)
    (train : Dataset) (sample : row) (s : State) :
  dataset !! "train" = Some train →
  sample ∈ rows train →
  sample !! "Question" = None ∨ sample !! "Complex_CoT" = None ∨
  sample !! "Response" = None →
  ∃ e, exn_class e = KeyError ∧
       prepare_split tokenizer dataset s =
       Raised e (mk_State (world s) (trace s ++ [EvCall C_Dataset_map])).
Proof.
  intros Htrain Hin Hmiss.
  destruct (format_instruction_missing tokenizer sample Hmiss) as (k & _ & _ & Hk).
  destruct (map_rows_missing_field tokenizer (column_names train) (rows train) sample
              Hin (ex_intro _ _ Hk)) as (e & He & Hclass).
  exists e. split; [done|].
  unfold prepare_split, getitem. rewrite Htrain.
  unfold mbind at 1, M_bind at 1, lift. cbn [fmap result_fmap].
  unfold mbind at 1, M_bind at 1, lift.
  unfold mbind at 1, M_bind at 1, query.
  unfold mbind at 1, M_bind at 1, lib_pure, lib, Dataset_map.
  rewrite He. reflexivity.
Qed.

(** C6: a record that lacks one of the three fields makes
    [format_instruction] raise the [KeyError] of a missing key, nothing is
    checked before and nothing catches it: the first mapping step over a
    training split that holds such a record raises a [KeyError], which leaves
    the rest of [prepare_dataset] undone. *)
Theorem missing_field_raises_KeyError (tokenizer : Tokenizer) (sample : row) :
  sample !! "Question" = None ∨ sample !! "Complex_CoT" = None ∨
  sample !! "Response" = None →
  (∃ k, k ∈ ["Question"; "Complex_CoT"; "Response"] ∧ sample !! k = None ∧
        format_instruction tokenizer sample = Raise (mk_exn KeyError (repr_key k))) ∧
  (∀ (train : Dataset) (num_proc : option nat),
     sample ∈ rows train →
     ∃ e, exn_class e = KeyError ∧
          Dataset_map (format_row tokenizer) (column_names train) num_proc train =
          Raise e) ∧
  (∀ (dataset : DatasetDict) (train : Dataset) (s : State),
     dataset !! "train" = Some train →
     sample ∈ rows train →
     ∃ e, exn_class e = KeyError ∧
          prepare_split tokenizer dataset s =
          Raised e (mk_State (world s) (trace s ++ [EvCall C_Dataset_map]))).
Proof.
  intros Hmiss. split; [by apply format_instruction_missing|]. split.
  - intros train num_proc Hin.
    destruct (format_instruction_missing tokenizer sample Hmiss) as (k & _ & _ & Hk).
    destruct (map_rows_missing_field tokenizer (column_names train) (rows train) sample
                Hin (ex_intro _ _ Hk)) as (e & He & Hclass).
    exists e. split; [done|]. unfold Dataset_map. by rewrite He.
  - intros dataset train s Htrain Hin. by eapply prepare_split_missing_field.
Qed.

(** *** Failures outside the smoke test's [try] *)

Lemma main_raises (s s1 : State) (e : exn) :
  main_try s = Raised e s1 →
  ∃ e' s2,
    main s = Raised e' s2 ∧
    trace s2 = trace s1 ++ [EvCall C_wandb_finish] ∧
    (returns (wandb_finish (world s1)) = true → e' = e).
Proof.
  intros H. unfold main, try_finally, main_finally, lib. rewrite H.
  destruct (wandb_finish (world s1)) as [[] w|e' w]; simpl.
  - by exists e, (mk_State w (trace s1 ++ [EvCall C_wandb_finish])).
  - by exists e', (mk_State w (trace s1 ++ [EvCall C_wandb_finish])).
Qed.

Lemma main_try_setup_model_raises (s s1 : State) (e : exn) :
  setup_model (printed s (nl +:+ "Setting up model...")) = Raised e s1 →
  main_try s = Raised e s1.
Proof.
  intros H. unfold main_try.
  rewrite (bind_Normal _ _ _ _ _ (print_one _ s)).
  by apply bind_Raised.
Qed.

Lemma main_try_after_setup_model (s s1 : State) (model : Model) (tokenizer : Tokenizer) :
  setup_model (printed s (nl +:+ "Setting up model...")) = Normal (model, tokenizer) s1 →
  main_try s =
  (train_dataset ← prepare_dataset tokenizer;
   print [nl +:+ "Setting up trainer..."];;
   trainer ← setup_trainer model tokenizer train_dataset None;
   print [nl +:+ "Starting training..."];;
   lib C_train (Trainer_train trainer);;
   print [nl +:+ "Saving model..."];;
   lib C_save_pretrained (save_pretrained (Trainer_model trainer) fine_tuned_model);;
   print [nl +:+ "Testing model..."];;
   test_model fine_tuned_model) (printed s1 (nl +:+ "Preparing dataset...")).
Proof.
  intros H. unfold main_try.
  rewrite (bind_Normal _ _ _ _ _ (print_one _ s)).
  rewrite (bind_Normal _ _ _ _ _ H).
  by rewrite (bind_Normal _ _ _ _ _ (print_one _ s1)).
Qed.

(** C7: what fails outside the [try] of the smoke test is not handled.  An
    exception that leaves the body of [main] leaves [main], after the call of
    [wandb.finish] and nothing else, and then the script, which ends the
    process; it is the same exception unless [wandb.finish] raises one of its
    own.  In particular a failing tokenizer or model load, a training record
    without one of its fields, and a failing training run each leave the body
    of [main] at the point of failure: no call is made again. *)
Theorem failures_outside_smoke_test_propagate :
  (∀ (s s1 : State) (e : exn),
     main_try s = Raised e s1 →
     ∃ e' s2,
       main s = Raised e' s2 ∧
       trace s2 = trace s1 ++ [EvCall C_wandb_finish] ∧
       (returns (wandb_finish (world s1)) = true → e' = e)) ∧
  (∀ (s s0 s1 : State) (device : string) (e : exn),
     module_body s = Normal device s0 →
     main s0 = Raised e s1 →
     script "__main__" s = Raised e s1) ∧
  (∀ (s : State) (e : exn) (w : World Ext),
     AutoTokenizer_from_pretrained MODEL_NAME true None (world s) = Raised e w →
     main_try s =
     Raised e (mk_State w (trace s ++ [EvPrint (nl +:+ "Setting up model...");
                                       EvCall C_AutoTokenizer_from_pretrained]))) ∧
  (∀ (s : State) (tokenizer : Tokenizer) (e : exn) (w1 w2 : World Ext),
     AutoTokenizer_from_pretrained MODEL_NAME true None (world s) = Normal tokenizer w1 →
     AutoModelForCausalLM_from_pretrained MODEL_NAME
       (load_kwargs (mps_is_available w1)) w1 = Raised e w2 →
     main_try s =
     Raised e (mk_State w2 (trace s ++ [EvPrint (nl +:+ "Setting up model...");
                                        EvCall C_AutoTokenizer_from_pretrained;
                                        EvCall C_AutoModelForCausalLM_from_pretrained]))) ∧
  (∀ (s s1 : State) (model : Model) (tokenizer : Tokenizer)
     (dataset split : DatasetDict) (train train' : Dataset) (sample : row)
     (w w' : World Ext),
     setup_model (printed s (nl +:+ "Setting up model...")) = Normal (model, tokenizer) s1 →
     load_dataset "FreedomIntelligence/medical-o1-reasoning-SFT" "en" (world s1) =
       Normal dataset w →
     dataset !! "train" = Some train →
     train_test_split train (9 # 10) (1 # 10) (Some 42%Z) w = Normal split w' →
     split !! "train" = Some train' →
     sample ∈ rows train' →
     sample !! "Question" = None ∨ sample !! "Complex_CoT" = None ∨
     sample !! "Response" = None →
     ∃ e s2, exn_class e = KeyError ∧ main_try s = Raised e s2) ∧
  (∀ (s s1 s2 s3 : State) (model : Model) (tokenizer : Tokenizer)
     (train_dataset : Dataset) (trainer : Trainer) (e : exn) (w : World Ext),
     setup_model (printed s (nl +:+ "Setting up model...")) = Normal (model, tokenizer) s1 →
     prepare_dataset tokenizer (printed s1 (nl +:+ "Preparing dataset...")) =
       Normal train_dataset s2 →
     setup_trainer model tokenizer train_dataset None
       (printed s2 (nl +:+ "Setting up trainer...")) = Normal trainer s3 →
     Trainer_train trainer (world s3) = Raised e w →
     main_try s =
     Raised e (mk_State w (trace s3 ++ [EvPrint (nl +:+ "Starting training...");
                                        EvCall C_train]))).
Proof.
  split; [exact main_raises|]. split; [|split; [|split; [|split]]].
  - intros s s0 s1 device e Hbody Hmain. unfold script.
    rewrite (bind_Normal _ _ _ _ _ Hbody). exact Hmain.
  - intros s e w Htok. apply main_try_setup_model_raises.
    unfold setup_model, mbind, M_bind, lib. cbn [world trace printed].
    rewrite Htok. by rewrite <- app_assoc.
  - intros s tokenizer e w1 w2 Htok Hmodel. apply main_try_setup_model_raises.
    unfold setup_model, mbind, M_bind, lib, query. cbn [world trace printed].
    rewrite Htok. cbn [world trace]. rewrite Hmodel.
    by rewrite <- !app_assoc.
  - intros s s1 model tokenizer dataset split train train' sample w w'
      Hsetup Hload Htrain Hsplit Htrain' Hin Hmiss.
    rewrite (main_try_after_setup_model _ _ _ _ Hsetup).
    set (s1' := printed s1 _).
    destruct (prepare_split_missing_field tokenizer split train' sample
                (mk_State w' (trace s1' ++ [EvCall C_load_dataset] ++
                                [EvPrint ("Dataset loaded with " +:+
                                          pretty (length (rows train)) +:+
                                          " training examples")] ++
                                [EvCall C_train_test_split]))
                Htrain' Hin Hmiss) as (e & Hclass & Hprep).
    exists e. eexists. split; [done|].
    apply bind_Raised. unfold prepare_dataset.
    assert (lib C_load_dataset
              (load_dataset "FreedomIntelligence/medical-o1-reasoning-SFT" "en") s1' =
            Normal dataset (mk_State w (trace s1' ++ [EvCall C_load_dataset]))) as H1.
    { unfold lib. change (world s1') with (world s1). by rewrite Hload. }
    rewrite (bind_Normal _ _ _ _ _ H1).
    unfold getitem at 1. rewrite Htrain.
    unfold mbind at 1, M_bind at 1, lift.
    rewrite (bind_Normal _ _ _ _ _ (print_one _ _)).
    unfold split_dataset, getitem at 1. rewrite Htrain.
    unfold mbind at 1, M_bind at 1. unfold mbind at 1, M_bind at 1, lift.
    unfold lib at 1. cbn [world trace printed]. rewrite Hsplit.
    rewrite <- Hprep. f_equal. f_equal. by rewrite <- !app_assoc.
  - intros s s1 s2 s3 model tokenizer train_dataset trainer e w
      Hsetup Hprep Htrainer Htrain.
    rewrite (main_try_after_setup_model _ _ _ _ Hsetup).
    rewrite (bind_Normal _ _ _ _ _ Hprep).
    rewrite (bind_Normal _ _ _ _ _ (print_one _ s2)).
    rewrite (bind_Normal _ _ _ _ _ Htrainer).
    rewrite (bind_Normal _ _ _ _ _ (print_one _ s3)).
    apply bind_Raised. unfold lib. cbn [world trace printed].
    rewrite Htrain. by rewrite <- app_assoc.
Qed.

(** *** Further facts *)

(** When the model reload of the smoke test raises, the exception leaves
    [test_model] before the [try] statement is entered: the cleanup does not
    run, and the world is the one the failed load left, in which the
    [offload] directory was made. *)
Theorem offload_left_when_reload_fails (model_path : string) (s : State) (fs1 : FS)
    (e : exn) (w : World Ext) :
  makedirs (path_components offload) true (fs (world s)) = Return fs1 →
  AutoModelForCausalLM_from_pretrained model_path reload_kwargs
    (mk_World fs1 (ext (world s))) = Raised e w →
  dir_exists offload fs1 = true ∧
  test_model model_path s =
  Raised e (mk_State w (trace s ++ [EvCall C_AutoModelForCausalLM_from_pretrained])).
Proof.
  intros Hmk Hload. split.
  - unfold makedirs in Hmk. unfold dir_exists.
    destruct (fs (world s) !! path_components offload) as [[|data]|] eqn:Hfs.
    + injection Hmk as <-. by rewrite Hfs.
    + discriminate.
    + injection Hmk as <-. by rewrite lookup_insert_eq.
  - unfold test_model, mbind, M_bind, on_fs, lib. rewrite Hmk.
    cbn [world trace]. by rewrite Hload.
Qed.

(** The tokenizer [setup_model] returns pads with its end-of-sequence token,
    on the right. *)
Theorem setup_model_pads_with_eos (s s' : State) (model : Model) (tokenizer : Tokenizer) :
  setup_model s = Normal (model, tokenizer) s' →
  pad_token tokenizer = eos_token tokenizer ∧ padding_side tokenizer = Right.
Proof.
  intros H. unfold setup_model in H.
  apply bind_inv_Normal in H as (t & s1 & _ & H).
  apply bind_inv_Normal in H as (mps & s2 & _ & H).
  apply bind_inv_Normal in H as (m & s3 & _ & H).
  apply bind_inv_Normal in H as ([] & s4 & _ & H).
  by injection H as _ <- _.
Qed.

End Properties.

(** ** Runs against the simulated library *)


(** Without a seed the simulated split does depend on the world. *)
Example sim_unseeded_split_differs :
  train_questions (sim_split sample_data (9 # 10) (1 # 10) None (mk_World ∅ 0%nat)) ≠
  train_questions (sim_split sample_data (9 # 10) (1 # 10) None (mk_World ∅ 1%nat)).
Proof. vm_compute. discriminate. Qed.






(** A split with and without its test part. *)
Lemma eval_dataset_is_ignored_witness :
  prepare_split (L := sim fair_weather) byte_tokenizer
    {[ "train" := sample_data ]} (start (L := sim fair_weather) empty_world) =
  prepare_split (L := sim fair_weather) byte_tokenizer
    {[ "train" := sample_data; "test" := sample_data ]}
    (start (L := sim fair_weather) empty_world).
Proof.
  apply (proj2 (eval_dataset_is_ignored (L := sim fair_weather))).
  vm_compute. reflexivity.
Defined.

(** The sample run returns two rows, each of 2048 ids. *)
Lemma tokenized_rows_have_fixed_length_witness :
  match sample_run with
  | Normal d _ =>
      length (rows d) = 2%nat ∧
      MAX_NEW_TOKENS = 2048%nat ∧
      Forall (λ x, token_length_is MAX_NEW_TOKENS x = true) (rows d)
  | Raised _ _ => False
  end.
Proof.
  destruct sample_run as [d s'|e s'] eqn:E.
  - split.
    + apply (f_equal (λ o, match o with
                           | Normal d _ => length (rows d)
                           | Raised _ _ => 0%nat
                           end)) in E.
      vm_compute in E. by symmetry.
    + exact (tokenized_rows_have_fixed_length (L := sim fair_weather)
               padded_tokenizer _ _ _ E).
  - apply (f_equal returns) in E. vm_compute in E. discriminate.
Defined.

(** A training split whose second record has no answer. *)
Lemma missing_field_raises_KeyError_witness :
  format_instruction byte_tokenizer unanswered =
    Raise (mk_exn KeyError (repr_key "Response")) ∧
  ∃ e, exn_class e = KeyError ∧
       prepare_split (L := sim fair_weather) byte_tokenizer
         {[ "train" := mk_dataset sample_columns
                         [sample_row "Q1" "because" "A1"; unanswered] ]}
         (start (L := sim fair_weather) empty_world) =
       Raised e (mk_State (L := sim fair_weather) empty_world [EvCall C_Dataset_map]).
Proof.
  split; [reflexivity|].
  apply (proj2 (proj2 (missing_field_raises_KeyError (L := sim fair_weather)
                         byte_tokenizer unanswered (or_intror (or_intror eq_refl))))
           _ (mk_dataset sample_columns [sample_row "Q1" "because" "A1"; unanswered])).
  - reflexivity.
  - apply list_elem_of_In. simpl. tauto.
Defined.

(** Training runs out of memory. *)
Lemma failures_outside_smoke_test_propagate_witness :
  let s := start (L := sim training_fails) empty_world in
  let s1 := state_of (main_try (L := sim training_fails) s) in
  let e := mk_exn RuntimeError "MPS backend out of memory" in
  ∃ e' s2,
    main (L := sim training_fails) s = Raised e' s2 ∧
    trace s2 = trace s1 ++ [EvCall C_wandb_finish] ∧
    (returns (wandb_finish (world s1)) = true → e' = e).
Proof.
  intros s s1 e.
  assert (value_of (main_try (L := sim training_fails) s) = Raise e) as Hvalue
    by (vm_compute; reflexivity).
  exact (proj1 (failures_outside_smoke_test_propagate (L := sim training_fails)) s s1 e
           (raised_by_value (main_try (L := sim training_fails) s) e Hvalue)).
Defined.

(** The reload fails in an empty directory: [offload] is made and stays. *)
Lemma offload_left_when_reload_fails_witness :
  let s := start (L := sim load_fails) empty_world in
  let e := mk_exn OSError "Error no file named model.safetensors found" in
  let fs1 : FS := {[ ["offload"] := Dir ]} in
  dir_exists offload fs1 = true ∧
  test_model (L := sim load_fails) fine_tuned_model s =
  Raised e (mk_State (L := sim load_fails) (mk_World fs1 0%nat)
              (trace s ++ [EvCall C_AutoModelForCausalLM_from_pretrained])).
Proof.
  intros s e fs1.
  apply (offload_left_when_reload_fails (L := sim load_fails) fine_tuned_model s fs1 e
           (mk_World fs1 0%nat)); reflexivity.
Defined.

(** The tokenizer of the sample run of [setup_model]. *)
Lemma setup_model_pads_with_eos_witness :
  match setup_model (L := sim fair_weather) (start (L := sim fair_weather) empty_world) with
  | Normal (_, tokenizer) _ =>
      pad_token tokenizer = eos_token tokenizer ∧ padding_side tokenizer = Right
  | Raised _ _ => False
  end.
Proof.
  destruct (setup_model (L := sim fair_weather) (start (L := sim fair_weather) empty_world))
    as [[model tokenizer] s'|e s'] eqn:E.
  - exact (setup_model_pads_with_eos (L := sim fair_weather) _ _ _ _ E).
  - apply (f_equal returns) in E. vm_compute in E. discriminate.
Defined.

(** * Further properties of the code *)

(** ** The prompt formatter (lines 73-86) *)

Lemma length_append (a b : string) :
  String.length (a +:+ b) = (String.length a + String.length b)%nat.
Proof. induction a as [|c a IH]; [done|]. rewrite append_cons. simpl. by rewrite IH. Qed.

(** The fields are put into the template as they are, with no escaping: a
    question that contains the response header is read back as a shorter
    question followed by reasoning, so two different records give the same
    prompt. *)
Theorem format_instruction_does_not_escape (tokenizer : Tokenizer) (sample1 sample2 : row)
    (x y z : string) (response : value) :
  sample1 !! "Question" = Some (VStr (x +:+ response_header +:+ y)) →
  sample1 !! "Complex_CoT" = Some (VStr z) →
  sample1 !! "Response" = Some response →
  sample2 !! "Question" = Some (VStr x) →
  sample2 !! "Complex_CoT" = Some (VStr (y +:+ response_header +:+ z)) →
  sample2 !! "Response" = Some response →
  sample1 !! "Question" ≠ sample2 !! "Question" ∧
  format_instruction tokenizer sample1 = format_instruction tokenizer sample2.
Proof.
  intros Hq1 Hc1 Hr1 Hq2 Hc2 Hr2. split.
  - rewrite Hq1, Hq2. intros [= H]. apply (f_equal String.length) in H.
    rewrite !length_append in H. vm_compute (String.length response_header) in H. lia.
  - unfold format_instruction, getitem.
    rewrite Hq1, Hc1, Hr1, Hq2, Hc2, Hr2. simpl. by rewrite !append_assoc.
Qed.

Lemma format_instruction_does_not_escape_witness :
  sample_row ("a" +:+ response_header +:+ "b") "c" "A" !! "Question" ≠
  sample_row "a" ("b" +:+ response_header +:+ "c") "A" !! "Question" ∧
  format_instruction byte_tokenizer
    (sample_row ("a" +:+ response_header +:+ "b") "c" "A") =
  format_instruction byte_tokenizer
    (sample_row "a" ("b" +:+ response_header +:+ "c") "A").
Proof.
  apply (format_instruction_does_not_escape byte_tokenizer _ _ "a" "b" "c" (VStr "A"));
    reflexivity.
Defined.

(** The prompt depends on the three fields only: whatever else a record
    holds, or lacks, does not change the result. *)
Theorem format_instruction_reads_three_fields (tokenizer : Tokenizer)
    (sample1 sample2 : row) :
  sample1 !! "Question" = sample2 !! "Question" →
  sample1 !! "Complex_CoT" = sample2 !! "Complex_CoT" →
  sample1 !! "Response" = sample2 !! "Response" →
  format_instruction tokenizer sample1 = format_instruction tokenizer sample2.
Proof.
  intros Hq Hc Hr. unfold format_instruction, getitem. by rewrite Hq, Hc, Hr.
Qed.

Lemma format_instruction_reads_three_fields_witness :
  format_instruction byte_tokenizer (sample_row "Q1" "because" "A1") =
  format_instruction byte_tokenizer
    (<["source" := VStr "textbook"]> (sample_row "Q1" "because" "A1")).
Proof.
  apply format_instruction_reads_three_fields; reflexivity.
Defined.

(** The fields are looked up in the order of the template, so the
    [KeyError] names the first field that is missing, also when several
    are. *)
Theorem format_instruction_reports_first_missing (tokenizer : Tokenizer) (sample : row) :
  (sample !! "Question" = None →
   format_instruction tokenizer sample = Raise (mk_exn KeyError (repr_key "Question"))) ∧
  (is_Some (sample !! "Question") → sample !! "Complex_CoT" = None →
   format_instruction tokenizer sample =
   Raise (mk_exn KeyError (repr_key "Complex_CoT"))) ∧
  (is_Some (sample !! "Question") → is_Some (sample !! "Complex_CoT") →
   sample !! "Response" = None →
   format_instruction tokenizer sample = Raise (mk_exn KeyError (repr_key "Response"))).
Proof.
  unfold format_instruction, getitem. repeat split.
  - by intros ->.
  - by intros [q ->] ->.
  - by intros [q ->] [c ->] ->.
Qed.

Lemma format_instruction_reports_first_missing_witness :
  format_instruction byte_tokenizer {[ "Complex_CoT" := VStr "hm" ]} =
  Raise (mk_exn KeyError (repr_key "Question")).
Proof.
  apply (proj1 (format_instruction_reports_first_missing byte_tokenizer
                  {[ "Complex_CoT" := VStr "hm" ]})).
  reflexivity.
Defined.

(** ** The dataset (lines 63-115) *)

Lemma map_rows_length (f : row → result row) (remove : list string) (xs rs : list row) :
  map_rows f remove xs = Return rs → length rs = length xs.
Proof.
  revert rs. induction xs as [|x xs IH]; intros rs; simpl.
  - by intros [= <-].
  - destruct (f x) as [y|e]; [|discriminate]. simpl.
    destruct (map_rows f remove xs) as [ys|e]; [|discriminate].
    intros [= <-]. simpl. by rewrite (IH ys).
Qed.

Lemma map_rows_lookup (f : row → result row) (remove : list string) (xs rs : list row)
    (i : nat) (x : row) :
  map_rows f remove xs = Return rs → xs !! i = Some x →
  ∃ y, f x = Return y ∧ rs !! i = Some (y ∪ remove_columns_row remove x).
Proof.
  revert rs i. induction xs as [|x0 xs IH]; intros rs i; simpl; [done|].
  destruct (f x0) as [y0|e] eqn:Hy0; [|discriminate]. simpl.
  destruct (map_rows f remove xs) as [ys|e]; [|discriminate].
  intros [= <-]. destruct i as [|i]; simpl.
  - intros [= <-]. by exists y0.
  - by apply IH.
Qed.

Lemma map_rows_lookup_inv (f : row → result row) (remove : list string)
    (xs rs : list row) (i : nat) (r : row) :
  map_rows f remove xs = Return rs → rs !! i = Some r →
  ∃ x y, xs !! i = Some x ∧ f x = Return y ∧ r = y ∪ remove_columns_row remove x.
Proof.
  intros Hmap Hr.
  destruct (lookup_lt_is_Some_2 xs i) as [x Hx].
  { rewrite <- (map_rows_length _ _ _ _ Hmap). by eapply lookup_lt_Some. }
  destruct (map_rows_lookup _ _ _ _ _ _ Hmap Hx) as (y & Hy & Hr').
  exists x, y. repeat split; [done..|]. congruence.
Qed.

Lemma remove_columns_row_removed (cols : list string) (x : row) (c : string) :
  c ∈ cols → remove_columns_row cols x !! c = None.
Proof.
  unfold remove_columns_row. induction cols as [|a cols IH]; simpl.
  - intros H. by apply elem_of_nil in H.
  - intros H. destruct (decide (a = c)) as [->|Hne].
    + apply lookup_delete_eq.
    + rewrite lookup_delete_ne by done. apply IH.
      apply elem_of_cons in H as [->|H]; [done | exact H].
Qed.

Lemma tokenizer_call_keys (tok : Tokenizer) (text : string) (truncation : bool)
    (padding : padding_strategy) (n : nat) (enc : row) :
  tokenizer_call tok text truncation padding n = Return enc →
  is_Some (enc !! "input_ids") ∧ is_Some (enc !! "attention_mask") ∧
  ∀ k, k ≠ "input_ids" → k ≠ "attention_mask" → enc !! k = None.
Proof.
  unfold tokenizer_call. intros H.
  assert (∃ a b, enc = {[ "input_ids" := a; "attention_mask" := b ]}) as (a & b & ->).
  { destruct padding; [injection H as <-; eauto..|].
    destruct (pad_token tok); [|discriminate].
    destruct (padding_side tok); injection H as <-; eauto. }
  split; [by rewrite lookup_insert_eq|]. split.
  - by rewrite lookup_insert_ne, lookup_singleton_eq.
  - intros k H1 H2. by rewrite lookup_insert_ne, lookup_singleton_ne.
Qed.

Lemma format_row_inv (tokenizer : Tokenizer) (x y : row) :
  format_row tokenizer x = Return y →
  ∃ text, format_instruction tokenizer x = Return text ∧ y = {[ "text" := VStr text ]}.
Proof.
  unfold format_row. destruct (format_instruction tokenizer x) as [text|e]; [|discriminate].
  intros [= <-]. by exists text.
Qed.

Lemma tokenize_row_of_text (tokenizer : Tokenizer) (text : string) (z enc : row) :
  tokenize_row tokenizer ({[ "text" := VStr text ]} ∪ z) = Return enc →
  tokenizer_call tokenizer text true PadMaxLength MAX_NEW_TOKENS = Return enc.
Proof.
  unfold tokenize_row, getitem.
  by rewrite (lookup_union_Some_l _ z _ _ (lookup_singleton_eq "text" (VStr text))).
Qed.

Section More.
Context {L : Library}.

Lemma prepare_split_inv (tokenizer : Tokenizer) (dataset : DatasetDict) (train d : Dataset)
    (s s' : State) :
  prepare_split tokenizer dataset s = Normal d s' →
  dataset !! "train" = Some train →
  ∃ rows1,
    map_rows (format_row tokenizer) (column_names train) (rows train) = Return rows1 ∧
    map_rows (tokenize_row tokenizer) ["text"] rows1 = Return (rows d).
Proof.
  intros H Htrain. unfold prepare_split, getitem in H. rewrite Htrain in H.
  apply bind_inv_Normal in H as (train0 & s1 & H0 & H). injection H0 as <- <-.
  apply bind_inv_Normal in H as (columns & s2 & H0 & H). injection H0 as <- <-.
  apply bind_inv_Normal in H as (n1 & s3 & _ & H).
  apply bind_inv_Normal in H as (d1 & s4 & Hmap1 & H).
  apply bind_inv_Normal in H as (n2 & s5 & _ & H).
  apply bind_inv_Normal in H as (d2 & s6 & Hmap2 & H).
  apply bind_inv_Normal in H as ([] & s7 & _ & H).
  apply bind_inv_Normal in H as ([] & s8 & _ & H).
  apply bind_inv_Normal in H as (train' & s9 & _ & H).
  apply bind_inv_Normal in H as (first & s10 & _ & H).
  apply bind_inv_Normal in H as (sample & s11 & _ & H).
  apply bind_inv_Normal in H as ([] & s12 & _ & H).
  injection H as <- _.
  unfold lib_pure, lib in Hmap1, Hmap2.
  destruct (Dataset_map _ _ _ train) as [d1'|e] eqn:Hd1; [|discriminate].
  injection Hmap1 as -> _.
  destruct (Dataset_map _ _ _ d1) as [d2'|e] eqn:Hd2; [|discriminate].
  injection Hmap2 as -> _.
  exists (rows d1). split; by eapply Dataset_map_rows.
Qed.

(** The training dataset [prepare_dataset] builds from a split has one row
    for each row of the split's training part, in the same order: the row at
    an index holds the token ids and the mask the tokenizer gives for the
    prompt of the record at that index. *)
Theorem prepare_split_rows_correspond (tokenizer : Tokenizer) (dataset : DatasetDict)
    (train d : Dataset) (s s' : State) :
  prepare_split tokenizer dataset s = Normal d s' →
  dataset !! "train" = Some train →
  length (rows d) = length (rows train) ∧
  ∀ i x, rows train !! i = Some x →
    ∃ text enc y,
      format_instruction tokenizer x = Return text ∧
      tokenizer_call tokenizer text true PadMaxLength MAX_NEW_TOKENS = Return enc ∧
      rows d !! i = Some y ∧
      y !! "input_ids" = enc !! "input_ids" ∧
      y !! "attention_mask" = enc !! "attention_mask".
Proof.
  intros H Htrain.
  destruct (prepare_split_inv _ _ _ _ _ _ H Htrain) as (rows1 & Hmap1 & Hmap2).
  split.
  { by rewrite (map_rows_length _ _ _ _ Hmap2), (map_rows_length _ _ _ _ Hmap1). }
  intros i x Hx.
  destruct (map_rows_lookup _ _ _ _ _ _ Hmap1 Hx) as (y1 & Hy1 & Hr1).
  apply format_row_inv in Hy1 as (text & Htext & ->).
  destruct (map_rows_lookup _ _ _ _ _ _ Hmap2 Hr1) as (enc & Henc & Hr2).
  apply tokenize_row_of_text in Henc.
  exists text, enc,
    (enc ∪ remove_columns_row ["text"]
             ({[ "text" := VStr text ]} ∪ remove_columns_row (column_names train) x)).
  split; [done|]. split; [done|]. split; [done|]. split.
  - destruct (tokenizer_call_keys _ _ _ _ _ _ Henc) as ([v Hv] & _ & _).
    by rewrite (lookup_union_Some_l _ _ _ _ Hv).
  - destruct (tokenizer_call_keys _ _ _ _ _ _ Henc) as (_ & [v Hv] & _).
    by rewrite (lookup_union_Some_l _ _ _ _ Hv).
Qed.

(** The rows of the training dataset keep neither the intermediate [text]
    column nor any column of the raw dataset's schema: what the schema
    names is dropped, apart from a column that would itself be called
    [input_ids] or [attention_mask]. *)
Theorem prepare_split_rows_drop_text (tokenizer : Tokenizer) (dataset : DatasetDict)
    (train d : Dataset) (s s' : State) :
  prepare_split tokenizer dataset s = Normal d s' →
  dataset !! "train" = Some train →
  Forall (λ y : row,
            y !! "text" = None ∧
            ∀ c, c ∈ column_names train → c ≠ "input_ids" → c ≠ "attention_mask" →
                 y !! c = None) (rows d).
Proof.
  intros H Htrain.
  destruct (prepare_split_inv _ _ _ _ _ _ H Htrain) as (rows1 & Hmap1 & Hmap2).
  apply Forall_lookup. intros i y Hy.
  destruct (map_rows_lookup_inv _ _ _ _ _ _ Hmap2 Hy) as (r1 & enc & Hr1 & Henc & ->).
  destruct (map_rows_lookup_inv _ _ _ _ _ _ Hmap1 Hr1) as (x & y1 & Hx & Hy1 & ->).
  apply format_row_inv in Hy1 as (text & Htext & ->).
  apply tokenize_row_of_text in Henc.
  destruct (tokenizer_call_keys _ _ _ _ _ _ Henc) as (_ & _ & Hkeys).
  split.
  - apply lookup_union_None_2; [by apply Hkeys|].
    apply remove_columns_row_removed, list_elem_of_In. simpl. tauto.
  - intros c Hc Hids Hmask.
    apply lookup_union_None_2; [by apply Hkeys|].
    destruct (decide (c = "text")) as [->|Hne].
    + apply remove_columns_row_removed, list_elem_of_In. simpl. tauto.
    + unfold remove_columns_row at 1. simpl. rewrite lookup_delete_ne by done.
      apply lookup_union_None_2; [by rewrite lookup_singleton_ne|].
      by apply remove_columns_row_removed.
Qed.

(** When the loaded dataset has no ["train"] split, [prepare_dataset] raises
    the [KeyError] of that key right after loading: nothing is split or
    mapped. *)
Theorem prepare_dataset_without_train_split (tokenizer : Tokenizer) (s : State)
    (dataset : DatasetDict) (w : World Ext) :
  load_dataset "FreedomIntelligence/medical-o1-reasoning-SFT" "en" (world s) =
    Normal dataset w →
  dataset !! "train" = None →
  prepare_dataset tokenizer s =
  Raised (mk_exn KeyError (repr_key "train"))
    (mk_State w (trace s ++ [EvCall C_load_dataset])).
Proof.
  intros Hload Hnone. unfold prepare_dataset, mbind, M_bind, lib, lift, getitem.
  by rewrite Hload, Hnone.
Qed.

(** ** The smoke test (lines 201-268) *)









(** ** Which calls a run makes *)

Lemma avoids_ret {A} (c : call) (a : A) : avoids c (mret a : M A).
Proof. intros s. exists []. simpl. split; [by rewrite app_nil_r | apply not_elem_of_nil]. Qed.

Lemma avoids_bind {A B} (c : call) (m : M A) (f : A → M B) :
  avoids c m → (∀ a, avoids c (f a)) → avoids c (m ≫= f).
Proof.
  intros Hm Hf s. destruct (Hm s) as (evs & Hevs & Hnot).
  unfold mbind, M_bind. destruct (m s) as [a s1|e s1]; simpl in *.
  - destruct (Hf a s1) as (evs' & Hevs' & Hnot'). exists (evs ++ evs'). split.
    + by rewrite Hevs', Hevs, app_assoc.
    + rewrite elem_of_app. tauto.
  - eauto.
Qed.


Lemma avoids_lift {A} (c : call) (x : result A) : avoids c (lift x).
Proof.
  intros s. exists []. split; [|apply not_elem_of_nil].
  destruct x; simpl; by rewrite app_nil_r.
Qed.

Lemma avoids_lib {A} (c c' : call) (f : World Ext → outcome (World Ext) A) :
  c' ≠ c → avoids c (lib c' f).
Proof.
  intros Hne s. exists [EvCall c']. split.
  - unfold lib. by destruct (f (world s)).
  - rewrite list_elem_of_singleton. congruence.
Qed.

Lemma avoids_lib_pure {A} (c c' : call) (x : result A) :
  c' ≠ c → avoids c (lib_pure c' x).
Proof. apply avoids_lib. Qed.

Lemma avoids_query {A} (c : call) (f : World Ext → A) : avoids c (query f).
Proof. intros s. exists []. simpl. split; [by rewrite app_nil_r | apply not_elem_of_nil]. Qed.

Lemma avoids_print (c : call) (args : list string) : avoids c (print args).
Proof.
  intros s. eexists. split; [reflexivity|].
  rewrite list_elem_of_singleton. discriminate.
Qed.

Lemma avoids_on_fs (c : call) (f : FS → result FS) : avoids c (on_fs f).
Proof.
  intros s. exists []. split; [|apply not_elem_of_nil]. unfold on_fs.
  destruct (f (fs (world s))); simpl; by rewrite app_nil_r.
Qed.

Lemma avoids_try_except {A} (c : call) (body : M A) (handler : exn → M A) :
  avoids c body → (∀ e, avoids c (handler e)) → avoids c (try_except body handler).
Proof.
  intros Hb Hh s. destruct (Hb s) as (evs & Hevs & Hnot).
  unfold try_except. destruct (body s) as [a s1|e s1]; simpl in *; [eauto|].
  destruct (is_Exception (exn_class e)); simpl; [|eauto].
  destruct (Hh e s1) as (evs' & Hevs' & Hnot'). exists (evs ++ evs'). split.
  - by rewrite Hevs', Hevs, app_assoc.
  - rewrite elem_of_app. tauto.
Qed.

Lemma avoids_try_finally {A} (c : call) (body : M A) (final : M ()) :
  avoids c body → avoids c final → avoids c (try_finally body final).
Proof.
  intros Hb Hf s. destruct (Hb s) as (evs & Hevs & Hnot).
  unfold try_finally.
  destruct (body s) as [a s1|e s1]; simpl in *;
    destruct (Hf s1) as (evs' & Hevs' & Hnot');
    destruct (final s1) as [[] s2|e2 s2]; simpl in *;
    exists (evs ++ evs');
    (split; [by rewrite Hevs', Hevs, app_assoc | rewrite elem_of_app; tauto]).
Qed.

Lemma avoids_if {A} (c : call) (b : bool) (m1 m2 : M A) :
  avoids c m1 → avoids c m2 → avoids c (if b then m1 else m2).
Proof. by destruct b. Qed.

End More.

Ltac avoids_steps :=
  repeat first
    [ apply avoids_bind; [|intros ?]
    | apply avoids_try_finally
    | apply avoids_try_except; [|intros ?]
    | apply avoids_if
    | match goal with |- avoids _ (let '(_, _) := ?p in _) => destruct p end
    | apply avoids_ret | apply avoids_lift | apply avoids_query
    | apply avoids_print | apply avoids_on_fs
    | apply avoids_lib; discriminate
    | apply avoids_lib_pure; discriminate
    | assumption ].

Section Calls.
Context {L : Library}.

Lemma select_device_avoids (c : call) : avoids c select_device.
Proof. unfold select_device. avoids_steps. Qed.

Lemma setup_model_avoids (c : call) :
  c ≠ C_AutoTokenizer_from_pretrained → c ≠ C_AutoModelForCausalLM_from_pretrained →
  c ≠ C_enable_input_require_grads → avoids c setup_model.
Proof.
  intros H1 H2 H3. unfold setup_model.
  repeat first [ apply avoids_lib; congruence | avoids_steps ].
Qed.

Lemma prepare_dataset_avoids (c : call) (tokenizer : Tokenizer) :
  c ≠ C_load_dataset → c ≠ C_train_test_split → c ≠ C_Dataset_map →
  avoids c (prepare_dataset tokenizer).
Proof.
  intros H1 H2 H3. unfold prepare_dataset, split_dataset, prepare_split.
  repeat first [ apply avoids_lib; congruence | apply avoids_lib_pure; congruence
               | avoids_steps ].
Qed.

Lemma setup_trainer_avoids (c : call) model tokenizer train_dataset eval_dataset :
  c ≠ C_LoraConfig → c ≠ C_TrainingArguments → c ≠ C_DataCollator → c ≠ C_SFTTrainer →
  avoids c (setup_trainer model tokenizer train_dataset eval_dataset).
Proof.
  intros H1 H2 H3 H4. unfold setup_trainer.
  repeat first [ apply avoids_lib; congruence | avoids_steps ].
Qed.

Lemma test_model_avoids (c : call) (model_path : string) :
  c ≠ C_AutoModelForCausalLM_from_pretrained → c ≠ C_AutoTokenizer_from_pretrained →
  c ≠ C_pipeline → c ≠ C_pipeline_call → c ≠ C_wandb_Table → c ≠ C_wandb_log →
  avoids c (test_model model_path).
Proof.
  intros H1 H2 H3 H4 H5 H6.
  unfold test_model, test_model_guarded, test_model_try, test_model_except,
    test_model_finally.
  repeat first [ apply avoids_lib; congruence | avoids_steps ].
Qed.

Lemma main_try_avoids_finish : avoids C_wandb_finish main_try.
Proof.
  unfold main_try.
  pose proof (setup_model_avoids C_wandb_finish) as H1.
  pose proof (prepare_dataset_avoids C_wandb_finish) as H2.
  pose proof (setup_trainer_avoids C_wandb_finish) as H3.
  pose proof (test_model_avoids C_wandb_finish) as H4.
  repeat first [ apply H1; discriminate | apply H2; discriminate
               | apply H3; discriminate | apply H4; discriminate | avoids_steps ].
Qed.

(** On every run [main] calls [wandb.finish] exactly once: it is the last
    call, and the body of [main], the smoke test included, never makes it. *)
Theorem main_finishes_exactly_once (s : State) :
  ∃ evs,
    trace (state_of (main s)) = trace s ++ evs ++ [EvCall C_wandb_finish] ∧
    EvCall C_wandb_finish ∉ evs.
Proof.
  destruct (main_try_avoids_finish s) as (evs & Hevs & Hnot). exists evs.
  split; [|done].
  unfold main, try_finally, main_finally, lib.
  destruct (main_try s) as [[] s1|e s1]; simpl in Hevs;
    destruct (wandb_finish (world s1)) as [[] w|e' w]; simpl;
    by rewrite Hevs, app_assoc.
Qed.



(** Loaded under another name than ["__main__"], the module still runs its
    top-level statements: when loading succeeds a tracker run has been
    started by [wandb.init], and nothing finishes it, since [main] is not
    called; no model is loaded either. *)
Theorem import_leaves_the_run_open (name : string) (s : State) :
  String.eqb name "__main__" = false →
  ∃ evs,
    trace (state_of (script name s)) = trace s ++ evs ∧
    (returns (script name s) = true → EvCall C_wandb_init ∈ evs) ∧
    (EvCall C_wandb_finish ∉ evs) ∧
    (EvCall C_AutoTokenizer_from_pretrained ∉ evs).
Proof.
  intros Hname. unfold script. rewrite Hname.
  assert (∀ c, c ≠ C_filterwarnings → c ≠ C_set_verbosity_error → c ≠ C_wandb_init →
               avoids c (module_body ≫= λ _ : string, mret ())) as Havoids.
  { intros c H1 H2 H3. unfold module_body.
    pose proof (select_device_avoids c).
    repeat first [ apply avoids_lib; congruence | avoids_steps ]. }
  destruct (Havoids C_wandb_finish ltac:(discriminate) ltac:(discriminate)
              ltac:(discriminate) s) as (evs & Hevs & Hfinish).
  destruct (Havoids C_AutoTokenizer_from_pretrained ltac:(discriminate) ltac:(discriminate)
              ltac:(discriminate) s) as (evs' & Hevs' & Hload).
  rewrite Hevs in Hevs'. apply app_inv_head in Hevs' as <-.
  exists evs. split; [exact Hevs|]. split; [|done].
  revert Hevs. unfold module_body, mbind, M_bind, lib.
  destruct (warnings_filterwarnings _ _ _) as [[] w1|e w1]; [|discriminate].
  cbn [world trace].
  destruct (warnings_filterwarnings _ _ _) as [[] w2|e w2]; [|discriminate].
  cbn [world trace].
  destruct (logging_set_verbosity_error _) as [[] w3|e w3]; [|discriminate].
  cbn [world trace].
  destruct (wandb_init _ _ _) as [[] w4|e w4]; [|discriminate].
  match goal with |- context [select_device ?s4] =>
    destruct (select_device_appends s4) as [evd Hevd];
    destruct (select_device s4) as [d s5|e s5]; [|discriminate]
  end.
  unfold mret, M_ret. cbn [state_of world trace] in *.
  rewrite Hevd, <- !app_assoc.
  intros Hevs _. apply app_inv_head in Hevs as <-.
  apply list_elem_of_In. simpl. tauto.
Qed.

(** Device selection never fails and makes no library call: it prints one
    line and prefers MPS, on an ["arm"] processor only, to CUDA, and CUDA to
    the CPU. *)
Theorem select_device_priority (s : State) :
  let mps := String.eqb (platform_processor (world s)) "arm" && mps_is_available (world s) in
  let cuda := cuda_is_available (world s) in
  ∃ device line,
    select_device s = Normal device (printed s line) ∧
    (device = "mps" ↔ mps = true) ∧
    (device = "cuda" ↔ mps = false ∧ cuda = true) ∧
    (device = "cpu" ↔ mps = false ∧ cuda = false).
Proof.
  unfold select_device, mbind, M_bind, query. cbn [world].
  destruct (String.eqb (platform_processor (world s)) "arm"); simpl;
    [destruct (mps_is_available (world s)); simpl|];
    try destruct (cuda_is_available (world s)); simpl;
    do 2 eexists; (split; [reflexivity|]); repeat split; intros; try discriminate;
    try tauto; try (destruct_and?; discriminate).
Qed.

End Calls.

(** ** Runs against the simulated library *)

(** The three sample records, tokenized. *)
Lemma prepare_split_rows_correspond_witness :
  match sample_split_run with
  | Normal d _ =>
      length (rows d) = length (rows sample_data) ∧
      ∀ i x, rows sample_data !! i = Some x →
        ∃ text enc y,
          format_instruction padded_tokenizer x = Return text ∧
          tokenizer_call padded_tokenizer text true PadMaxLength MAX_NEW_TOKENS =
            Return enc ∧
          rows d !! i = Some y ∧
          y !! "input_ids" = enc !! "input_ids" ∧
          y !! "attention_mask" = enc !! "attention_mask"
  | Raised _ _ => False
  end.
Proof.
  destruct sample_split_run as [d s'|e s'] eqn:E.
  - exact (prepare_split_rows_correspond (L := sim fair_weather) padded_tokenizer
             {[ "train" := sample_data ]} sample_data d _ _ E eq_refl).
  - apply (f_equal returns) in E. vm_compute in E. discriminate.
Defined.

(** The same run: the rows hold token ids and masks only. *)
Lemma prepare_split_rows_drop_text_witness :
  match sample_split_run with
  | Normal d _ =>
      Forall (λ y : row,
                y !! "text" = None ∧
                ∀ c, c ∈ column_names sample_data → c ≠ "input_ids" →
                     c ≠ "attention_mask" → y !! c = None) (rows d)
  | Raised _ _ => False
  end.
Proof.
  destruct sample_split_run as [d s'|e s'] eqn:E.
  - exact (prepare_split_rows_drop_text (L := sim fair_weather) padded_tokenizer
             {[ "train" := sample_data ]} sample_data d _ _ E eq_refl).
  - apply (f_equal returns) in E. vm_compute in E. discriminate.
Defined.

(** The hub answers with a dataset that only has a test split. *)
Lemma prepare_dataset_without_train_split_witness :
  prepare_dataset (L := sim test_only) padded_tokenizer
    (start (L := sim test_only) empty_world) =
  Raised (mk_exn KeyError (repr_key "train"))
    (mk_State (L := sim test_only) empty_world ([] ++ [EvCall C_load_dataset])).
Proof.
  apply (prepare_dataset_without_train_split (L := sim test_only) padded_tokenizer
           (start (L := sim test_only) empty_world) {[ "test" := sample_data ]}
           empty_world); reflexivity.
Defined.







(** The module is imported as [deepseek_finetune]. *)
Lemma import_leaves_the_run_open_witness :
  ∃ evs,
    trace (state_of (script (L := sim fair_weather) "deepseek_finetune"
                       (start (L := sim fair_weather) empty_world))) = [] ++ evs ∧
    (returns (script (L := sim fair_weather) "deepseek_finetune"
                (start (L := sim fair_weather) empty_world)) = true →
     EvCall C_wandb_init ∈ evs) ∧
    (EvCall C_wandb_finish ∉ evs) ∧
    (EvCall C_AutoTokenizer_from_pretrained ∉ evs).
Proof.
  exact (import_leaves_the_run_open (L := sim fair_weather) "deepseek_finetune"
           (start (L := sim fair_weather) empty_world) eq_refl).
Defined.
